(** * Adaptive rule selection and scheduling: a shallow embedding

    This development embeds the four service modules of the backend
    ([schema_canonicalizer.py], [fast_signals.py], [rule_metadata.py],
    [rule_router.py]) and proves properties of the rule-selection
    pipeline.

    Modelling conventions.
    - Python floats are exact rationals ([Q]); rounding is not modelled.
      The one place where the source produces a NaN (a [0/0] on numpy
      scalars, in [_calculate_risk_score] on a frame without rows) is
      modelled by [PyFloat].
    - A pandas [DataFrame] is an insertion-ordered list of named columns;
      its row count is the length of its columns, so a frame without
      columns has no rows.  A column carries its dtype, as pandas has
      it, and a list of cells.  Column names are strings.
    - Python [dict]s whose iteration order matters are association lists
      updated in place ([dict_set]); the metadata mapping handed to the
      router is a [gmap string PyVal].
    - A call that may raise returns [Result]; [try/except] is a match on
      it.
    - Timestamps are integers, nanoseconds since the epoch.  The clock
      ([datetime.now()]) and pandas' conversion of a string or a number
      to a timestamp are inputs of the environment: the Variables of
      the Sections [Core] and [Canonicalizer]. *)

From Stdlib Require Import ZArith QArith Qround String Ascii List Sorted Lia Lqa.
From stdpp Require Import gmap strings list.
Import ListNotations.

Local Open Scope string_scope.
Local Open Scope list_scope.
Local Open Scope Z_scope.

(** ** Python values and exceptions *)

Inductive PyExc :=
| KeyError (key : string)
| TypeError
| ValueError
| AttributeError.

Inductive Result (A : Type) :=
| Ok (a : A)
| Raise (e : PyExc).
Arguments Ok {A} a.
Arguments Raise {A} e.

Global Instance Result_ret : MRet Result := fun A a => Ok a.
Global Instance Result_bind : MBind Result := fun A B k r =>
  match r with
  | Ok a => k a
  | Raise e => Raise e
  end.

(** Values stored in the metadata mapping ([Dict[str, Any]]). *)
Inductive PyVal :=
| VNone
| VBool (b : bool)
| VNum (q : Q)
| VStr (s : string).

(** A float that may be NaN. *)
Inductive PyFloat :=
| Fin (q : Q)
| NaN.

Definition Qltb (a b : Q) : bool := negb (Qle_bool b a).

(** Python's [min(a, b)] returns [a] unless [b < a]; [max(a, b)] returns
    [a] unless [b > a]. *)
Definition pymin (a b : Q) : Q := if Qltb b a then b else a.
Definition pymax (a b : Q) : Q := if Qltb a b then b else a.

(** With a NaN every comparison is false, so [min(nan, b)] is [nan]. *)
Definition fadd (a : PyFloat) (b : Q) : PyFloat :=
  match a with Fin q => Fin (q + b) | NaN => NaN end.
Definition fmin (a : PyFloat) (b : Q) : PyFloat :=
  match a with Fin q => Fin (pymin q b) | NaN => NaN end.

(** ** Insertion-ordered dictionaries *)

(** [d[k] = v]: overwrite in place when the key exists, append otherwise. *)
Fixpoint dict_set {V} (k : string) (v : V) (d : list (string * V)) : list (string * V) :=
  match d with
  | [] => [(k, v)]
  | (k', v') :: d' =>
      if String.eqb k k' then (k, v) :: d' else (k', v') :: dict_set k v d'
  end.

Fixpoint dict_get {V} (k : string) (d : list (string * V)) : option V :=
  match d with
  | [] => None
  | (k', v') :: d' => if String.eqb k k' then Some v' else dict_get k d'
  end.

Definition dict_keys {V} (d : list (string * V)) : list string := map fst d.

Definition dict_mem {V} (k : string) (d : list (string * V)) : bool :=
  match dict_get k d with Some _ => true | None => false end.

(** ** Sorting

    [list.sort] and [sorted] are stable and compare keys with [<] only.
    Every stable sort returns the same list; this one is insertion
    sort, each element being placed before the first one that is not
    strictly smaller. *)
Section Sorting.
Context {A K : Type} (lt : K -> K -> bool) (key : A -> K).

Fixpoint sort_insert (x : A) (l : list A) : list A :=
  match l with
  | [] => [x]
  | y :: l' =>
      if lt (key y) (key x) then y :: sort_insert x l' else x :: y :: l'
  end.

Fixpoint sorted (l : list A) : list A :=
  match l with
  | [] => []
  | x :: l' => sort_insert x (sorted l')
  end.
End Sorting.

(** ** Tabular data *)

Inductive Cell :=
| CNull                (* None / NaN / NaT *)
| CNum (q : Q)
| CStr (s : string)
| CTime (t : Z).       (* a datetime64 value *)

Inductive DType :=
| DNumber              (* int64, float64: the subtypes of np.number *)
| DDatetime
| DObject.

Definition is_number (d : DType) : bool :=
  match d with DNumber => true | _ => false end.

Record Series := { dtype : DType; cells : list Cell }.

Definition DataFrame := list (string * Series).

Definition columns (df : DataFrame) : list string := dict_keys df.

(** [len(df)] *)
Definition len (df : DataFrame) : nat :=
  match df with
  | [] => 0%nat
  | (_, s) :: _ => length (cells s)
  end.

(** A table: distinct column names, every column as long as the index. *)
Definition wf_frame (df : DataFrame) : Prop :=
  List.NoDup (columns df) /\ Forall (fun c => length (cells (snd c)) = len df) df.

(** [df[name]] *)
Definition getitem (df : DataFrame) (name : string) : Result Series :=
  match dict_get name df with
  | Some s => Ok s
  | None => Raise (KeyError name)
  end.

Definition notna (c : Cell) : bool :=
  match c with CNull => false | _ => true end.
Definition isnull (c : Cell) : bool := negb (notna c).

(** [s.dropna()] *)
Definition dropna (s : Series) : list Cell := List.filter notna (cells s).

(** [s.notna().any()] and [s.isnull().all()] *)
Definition notna_any (s : Series) : bool := existsb notna (cells s).
Definition isnull_all (s : Series) : bool := forallb isnull (cells s).

(** [df.isnull().sum().sum()] *)
Definition count_nulls (df : DataFrame) : nat :=
  list_sum (map (fun c => length (List.filter isnull (cells (snd c)))) df).

Definition cell_eqb (a b : Cell) : bool :=
  match a, b with
  | CNull, CNull => true
  | CNum p, CNum q => Qeq_bool p q
  | CStr s, CStr t => String.eqb s t
  | CTime s, CTime t => Z.eqb s t
  | _, _ => false
  end.

(** The distinct values of a list of cells, in order of first occurrence. *)
Fixpoint unique (l : list Cell) : list Cell :=
  match l with
  | [] => []
  | c :: l' => c :: List.filter (fun x => negb (cell_eqb c x)) (unique l')
  end.

(** [s.nunique()]: nulls are not counted. *)
Definition nunique (s : list Cell) : nat := length (unique (List.filter notna s)).

(** The numbers of a column; a string or a timestamp where a number is
    needed is a [TypeError]. *)
Definition as_number (c : Cell) : Result Q :=
  match c with
  | CNum q => Ok q
  | _ => Raise TypeError
  end.

Definition numbers (l : list Cell) : Result (list Q) := mapM as_number l.

(** [sum(l)], and any accumulation [acc += x] from 0, left to right. *)
Definition Qsum (l : list Q) : Q := fold_left Qplus l 0%Q.
Definition Qlen {A} (l : list A) : Q := inject_Z (Z.of_nat (length l)).
Definition Qlen_df (df : DataFrame) : Q := inject_Z (Z.of_nat (len df)).

(** The metadata mapping ([Dict[str, Any]]) handed to signals, predicates
    and the router. *)
Abbreviation Meta := (gmap string PyVal).

(** [v == s] for a string literal [s]; [None == s] is false. *)
Definition py_eq_str (v : option PyVal) (s : string) : bool :=
  match v with
  | Some (VStr t) => String.eqb t s
  | _ => false
  end.

(** [v < q] for a float literal [q]: a bool is compared as 0 or 1, [None]
    and strings raise a [TypeError]. *)
Definition py_lt_num (v : PyVal) (q : Q) : Result bool :=
  match v with
  | VNum x => Ok (Qltb x q)
  | VBool b => Ok (Qltb (if b then 1%Q else 0%Q) q)
  | VNone | VStr _ => Raise TypeError
  end.

(** ** rule_metadata.py *)

Inductive RuleCategory :=
| FINANCIAL | TEMPORAL | BEHAVIORAL | INVENTORY | NETWORK | ML_ANOMALY.

Inductive RuleCost :=
| CHEAP | MEDIUM | EXPENSIVE.

(** [RuleCost.value] *)
Definition cost_value (c : RuleCost) : string :=
  match c with
  | CHEAP => "cheap"
  | MEDIUM => "medium"
  | EXPENSIVE => "expensive"
  end.

Definition cost_eqb (a b : RuleCost) : bool :=
  match a, b with
  | CHEAP, CHEAP | MEDIUM, MEDIUM | EXPENSIVE, EXPENSIVE => true
  | _, _ => false
  end.

Record RulePredicate := {
  pred_name : string;
  condition : DataFrame -> Meta -> Result bool;
  pred_description : string
}.

Record RuleMetadata := {
  name : string;
  category : RuleCategory;
  cost : RuleCost;
  predicates : list RulePredicate;
  tags : list string;
  priority : Z;
  description : string;
  confidence_threshold : Q;
  risk_threshold : Q
}.

Record RuleRegistry := { rules : list (string * RuleMetadata) }.

Definition register_rule (reg : RuleRegistry) (metadata : RuleMetadata) : RuleRegistry :=
  {| rules := dict_set (name metadata) metadata (rules reg) |}.

Definition get_rule_metadata (reg : RuleRegistry) (rule_name : string) : option RuleMetadata :=
  dict_get rule_name (rules reg).

(** One predicate under its [try/except]: an exception appends [False]. *)
Definition predicate_result (df : DataFrame) (file_metadata : Meta) (p : RulePredicate) : bool :=
  match condition p df file_metadata with
  | Ok b => b
  | Raise _ => false
  end.

(** The first loop of [get_applicable_rules]. *)
Fixpoint applicable_loop (df : DataFrame) (file_metadata : Meta)
    (items : list (string * RuleMetadata)) : list string :=
  match items with
  | [] => []
  | (rule_name, rule_meta) :: items' =>
      let predicate_results := map (predicate_result df file_metadata) (predicates rule_meta) in
      if forallb id predicate_results
      then rule_name :: applicable_loop df file_metadata items'
      else applicable_loop df file_metadata items'
  end.

(** [l.sort(key=f)]: the keys are computed first, one call per element
    (an exception in [f] aborts the sort), then the list is sorted on
    them. *)
Definition sort_by_key {A K} (lt : K -> K -> bool) (f : A -> Result K) (l : list A)
    : Result (list A) :=
  keys ← mapM f l;
  mret (map snd (sorted lt fst (combine keys l))).

(** [<] on the tuples [(-priority, cost.value)]: lexicographic, the
    second components compared as strings. *)
Definition key_lt (a b : Z * string) : bool :=
  (fst a <? fst b) || ((fst a =? fst b) && String.ltb (snd a) (snd b)).

Definition registry_sort_key (reg : RuleRegistry) (rule_name : string) : Result (Z * string) :=
  match dict_get rule_name (rules reg) with
  | Some m => Ok (- priority m, cost_value (cost m))
  | None => Raise (KeyError rule_name)
  end.

Definition get_applicable_rules (reg : RuleRegistry) (df : DataFrame) (file_metadata : Meta)
    : Result (list string) :=
  let applicable := applicable_loop df file_metadata (rules reg) in
  sort_by_key key_lt (registry_sort_key reg) applicable.

(** *** The built-in rules *)

Definition has_column (df : DataFrame) (c : string) : bool := dict_mem c df.

Definition high_value_transactions : RuleMetadata := {|
  name := "high_value_transactions";
  category := FINANCIAL;
  cost := CHEAP;
  predicates := [
    {| pred_name := "has_amount_field";
       condition := fun df meta =>
         if has_column df "amount"
         then s ← getitem df "amount"; mret (notna_any s)
         else Ok false;
       pred_description := "Data must have amount field with values" |};
    {| pred_name := "sufficient_data";
       condition := fun df meta => Ok (10 <=? Z.of_nat (len df));
       pred_description := "Need at least 10 transactions for statistical analysis" |} ];
  tags := ["financial"; "amount"; "statistical"];
  priority := 8;
  description := "Detect unusually high-value transactions using 95th percentile";
  confidence_threshold := 0.5%Q;
  risk_threshold := 0%Q
|}.

Definition duplicate_transactions : RuleMetadata := {|
  name := "duplicate_transactions";
  category := FINANCIAL;
  cost := CHEAP;
  predicates := [
    {| pred_name := "has_amount_merchant";
       condition := fun df meta => Ok (forallb (has_column df) ["amount"; "merchant"]);
       pred_description := "Need amount and merchant fields" |};
    {| pred_name := "has_timestamp";
       condition := fun df meta => Ok (has_column df "timestamp");
       pred_description := "Need timestamp for time-based grouping" |} ];
  tags := ["financial"; "duplicate"; "merchant"];
  priority := 7;
  description := "Detect duplicate transactions by amount, merchant, and time";
  confidence_threshold := 0.5%Q;
  risk_threshold := 0%Q
|}.

Definition off_hours_transactions : RuleMetadata := {|
  name := "off_hours_transactions";
  category := TEMPORAL;
  cost := CHEAP;
  predicates := [
    {| pred_name := "has_timestamp";
       condition := fun df meta => Ok (has_column df "timestamp");
       pred_description := "Need timestamp for hour analysis" |};
    {| pred_name := "not_inventory_only";
       condition := fun df meta => Ok (negb (py_eq_str (meta !! "file_type") "inventory"));
       pred_description := "Skip for inventory files (24/7 operations)" |} ];
  tags := ["temporal"; "hours"; "business"];
  priority := 6;
  description := "Detect transactions outside normal business hours";
  confidence_threshold := 0.5%Q;
  risk_threshold := 0%Q
|}.

Definition rapid_successive_transactions : RuleMetadata := {|
  name := "rapid_successive_transactions";
  category := BEHAVIORAL;
  cost := MEDIUM;
  predicates := [
    {| pred_name := "has_user_timestamp";
       condition := fun df meta => Ok (forallb (has_column df) ["user_id"; "timestamp"]);
       pred_description := "Need user_id and timestamp for user behavior analysis" |};
    {| pred_name := "multiple_users";
       condition := fun df meta =>
         s ← getitem df "user_id"; mret (1 <? Z.of_nat (nunique (cells s)));
       pred_description := "Need multiple users for pattern detection" |} ];
  tags := ["behavioral"; "user"; "velocity"];
  priority := 7;
  description := "Detect rapid successive transactions from same user";
  confidence_threshold := 0.5%Q;
  risk_threshold := 0%Q
|}.

(** [df.select_dtypes(include=[np.number]).columns] *)
Definition numeric_columns (df : DataFrame) : list string :=
  map fst (List.filter (fun c => is_number (dtype (snd c))) df).

Definition anomaly_detection : RuleMetadata := {|
  name := "anomaly_detection";
  category := ML_ANOMALY;
  cost := EXPENSIVE;
  predicates := [
    {| pred_name := "sufficient_data_for_ml";
       condition := fun df meta => Ok (50 <=? Z.of_nat (len df));
       pred_description := "Need at least 50 transactions for ML analysis" |};
    {| pred_name := "has_numeric_features";
       condition := fun df meta => Ok (2 <=? Z.of_nat (length (numeric_columns df)));
       pred_description := "Need at least 2 numeric features for ML" |};
    {| pred_name := "not_high_risk_already";
       condition := fun df meta =>
         py_lt_num (default (VNum 0) (meta !! "risk_score")) 0.8%Q;
       pred_description := "Skip if already high risk (early termination)" |} ];
  tags := ["ml"; "anomaly"; "expensive"];
  priority := 5;
  description := "Machine learning anomaly detection using Isolation Forest";
  confidence_threshold := 0.5%Q;
  risk_threshold := 0%Q
|}.

Definition inventory_movement_anomalies : RuleMetadata := {|
  name := "inventory_movement_anomalies";
  category := INVENTORY;
  cost := MEDIUM;
  predicates := [
    {| pred_name := "is_inventory_file";
       condition := fun df meta => Ok (py_eq_str (meta !! "file_type") "inventory");
       pred_description := "Only for inventory files" |};
    {| pred_name := "has_quantity_field";
       condition := fun df meta => Ok (has_column df "quantity");
       pred_description := "Need quantity field for inventory analysis" |} ];
  tags := ["inventory"; "movement"; "quantity"];
  priority := 6;
  description := "Detect unusual inventory movement patterns";
  confidence_threshold := 0.5%Q;
  risk_threshold := 0%Q
|}.

Definition default_rules : list RuleMetadata :=
  [ high_value_transactions; duplicate_transactions; off_hours_transactions;
    rapid_successive_transactions; anomaly_detection; inventory_movement_anomalies ].

(** [_register_default_rules], run by [__init__] on the empty dict. *)
Definition _register_default_rules (reg : RuleRegistry) : RuleRegistry :=
  fold_left register_rule default_rules reg.

(** The module-level [rule_registry = RuleRegistry()]. *)
Definition rule_registry : RuleRegistry := _register_default_rules {| rules := [] |}.

(** Every later state of a registry: the built-in rules followed by any
    sequence of [register_rule] calls. *)
Definition registry_after (registered : list RuleMetadata) : RuleRegistry :=
  fold_left register_rule registered rule_registry.

(** ** fast_signals.py: the engine *)

(** The diagnostic fields [value] and [metadata] of a signal are read by
    no decision of the core and are left out (one of them, the
    coefficient of variation, is a square root). *)
Record FastSignal := {
  signal_name : string;
  risk_score : Q;
  confidence : Q
}.

Definition SignalFunc := DataFrame -> Meta -> Result (option FastSignal).

Record FastSignalEngine := { signals : list (string * SignalFunc) }.

(** The loop of [calculate_all_signals]: a signal function that raises is
    reported and skipped, one that returns [None] adds nothing. *)
Fixpoint calculate_loop (df : DataFrame) (file_metadata : Meta)
    (items : list (string * SignalFunc)) : list FastSignal :=
  match items with
  | [] => []
  | (signal_name, signal_func) :: items' =>
      match signal_func df file_metadata with
      | Ok (Some signal_result) => signal_result :: calculate_loop df file_metadata items'
      | Ok None => calculate_loop df file_metadata items'
      | Raise _ => calculate_loop df file_metadata items'
      end
  end.

Definition calculate_all_signals (self : FastSignalEngine) (df : DataFrame)
    (file_metadata : Meta) : list FastSignal :=
  calculate_loop df file_metadata (signals self).

Definition get_aggregate_risk_score (signals : list FastSignal) : Q :=
  match signals with
  | [] => 0%Q
  | _ =>
      let weighted_scores := map (fun signal => (risk_score signal * confidence signal)%Q) signals in
      let total_weight := Qsum (map confidence signals) in
      if Qeq_bool total_weight 0 then 0%Q
      else (Qsum weighted_scores / total_weight)%Q
  end.

(** ** rule_router.py *)

Record RuleExecutionPlan := {
  rules_to_execute : list string;
  estimated_cost : Z;
  plan_risk_threshold : Q;
  early_termination_threshold : Q;
  execution_order : list string
}.

(** The router holds the registry and the engine it was built with (its
    third attribute, the canonicalizer, is used by none of its methods). *)
Record RuleRouter := {
  self_rule_registry : RuleRegistry;
  self_fast_signal_engine : FastSignalEngine
}.

(** [self.cost_estimates.get(cost, 100)] *)
Definition cost_estimates (c : RuleCost) : Z :=
  match c with
  | CHEAP => 10
  | MEDIUM => 100
  | EXPENSIVE => 1000
  end.

Fixpoint _filter_rules_by_risk_and_cost (self : RuleRouter) (rules : list string)
    (risk_score : Q) (file_metadata : Meta) : list string :=
  match rules with
  | [] => []
  | rule_name :: rules' =>
      let rest := _filter_rules_by_risk_and_cost self rules' risk_score file_metadata in
      match get_rule_metadata (self_rule_registry self) rule_name with
      | None => rest
      | Some rule_meta =>
          if cost_eqb (cost rule_meta) EXPENSIVE
             && Qltb risk_score 0.3
             && negb (py_eq_str (file_metadata !! "file_type") "financial")
          then rest
          else if Qltb risk_score (risk_threshold rule_meta) then rest
          else rule_name :: rest
      end
  end.

(** The grouping loop of [_order_rules_for_execution]: the cheap, the
    medium and the remaining rules, each in the order met. *)
Fixpoint group_by_cost (self : RuleRouter) (rules : list string)
    : list string * list string * list string :=
  match rules with
  | [] => ([], [], [])
  | rule_name :: rules' =>
      let '(cheap_rules, medium_rules, expensive_rules) := group_by_cost self rules' in
      match get_rule_metadata (self_rule_registry self) rule_name with
      | None => (cheap_rules, medium_rules, expensive_rules)
      | Some rule_meta =>
          if cost_eqb (cost rule_meta) CHEAP
          then (rule_name :: cheap_rules, medium_rules, expensive_rules)
          else if cost_eqb (cost rule_meta) MEDIUM
          then (cheap_rules, rule_name :: medium_rules, expensive_rules)
          else (cheap_rules, medium_rules, rule_name :: expensive_rules)
      end
  end.

(** The key of [sort_by_priority]; [None.priority] is an
    [AttributeError]. *)
Definition priority_sort_key (self : RuleRouter) (rule_name : string) : Result Z :=
  match get_rule_metadata (self_rule_registry self) rule_name with
  | Some m => Ok (- priority m)
  | None => Raise AttributeError
  end.

Definition sort_by_priority (self : RuleRouter) (rule_list : list string) : Result (list string) :=
  sort_by_key Z.ltb (priority_sort_key self) rule_list.

Definition _order_rules_for_execution (self : RuleRouter) (rules : list string)
    (df : DataFrame) (file_metadata : Meta) : Result (list string) :=
  let '(cheap_rules, medium_rules, expensive_rules) := group_by_cost self rules in
  cheap_rules ← sort_by_priority self cheap_rules;
  medium_rules ← sort_by_priority self medium_rules;
  expensive_rules ← sort_by_priority self expensive_rules;
  mret (cheap_rules ++ medium_rules ++ expensive_rules).

Definition _calculate_estimated_cost (self : RuleRouter) (rules : list string) : Z :=
  fold_left (fun total_cost rule_name =>
               match get_rule_metadata (self_rule_registry self) rule_name with
               | Some rule_meta => total_cost + cost_estimates (cost rule_meta)
               | None => total_cost
               end) rules 0.

(** [create_execution_plan] returns the plan, or the exception it
    raised, together with the two objects it was handed as they are
    after the call: the dataset and the metadata mapping, whose
    ['risk_score'] entry it assigns. *)
Definition create_execution_plan (self : RuleRouter) (df : DataFrame) (file_metadata : Meta)
    : Result RuleExecutionPlan * (DataFrame * Meta) :=
  let fast_signals := calculate_all_signals (self_fast_signal_engine self) df file_metadata in
  let aggregate_risk := get_aggregate_risk_score fast_signals in
  let base_risk := 0.1%Q in
  let aggregate_risk := pymax aggregate_risk base_risk in
  let file_metadata := <["risk_score" := VNum aggregate_risk]> file_metadata in
  (applicable_rules ← get_applicable_rules (self_rule_registry self) df file_metadata;
   let filtered_rules :=
     _filter_rules_by_risk_and_cost self applicable_rules aggregate_risk file_metadata in
   execution_order ← _order_rules_for_execution self filtered_rules df file_metadata;
   let estimated_cost := _calculate_estimated_cost self execution_order in
   let early_termination_threshold := if Qltb 0.7 aggregate_risk then 0.9%Q else 0.8%Q in
   mret {| rules_to_execute := execution_order;
           estimated_cost := estimated_cost;
           plan_risk_threshold := 0.3;
           early_termination_threshold := early_termination_threshold;
           execution_order := execution_order |},
   (df, file_metadata)).

Definition should_terminate_early (current_risk_score early_termination_threshold : Q) : bool :=
  Qle_bool early_termination_threshold current_risk_score.

(** [RuleCategory.value] *)
Definition category_value (c : RuleCategory) : string :=
  match c with
  | FINANCIAL => "financial"
  | TEMPORAL => "temporal"
  | BEHAVIORAL => "behavioral"
  | INVENTORY => "inventory"
  | NETWORK => "network"
  | ML_ANOMALY => "ml_anomaly"
  end.

(** One entry of ['rule_breakdown']. *)
Record RuleStats := {
  stat_category : string;
  stat_cost : string;
  stat_priority : Z;
  estimated_time_ms : Z
}.

(** The dict returned by [get_rule_execution_stats]. *)
Record ExecutionStats := {
  total_rules : Z;
  estimated_total_time_ms : Z;
  rule_breakdown : list (string * RuleStats);
  stats_early_termination_threshold : Q
}.

(** The loop of [get_rule_execution_stats]: [rule_stats[rule_name] = ...]
    for every name of the plan that the registry knows. *)
Fixpoint breakdown_loop (self : RuleRouter) (rules : list string)
    (rule_stats : list (string * RuleStats)) : list (string * RuleStats) :=
  match rules with
  | [] => rule_stats
  | rule_name :: rules' =>
      breakdown_loop self rules'
        match get_rule_metadata (self_rule_registry self) rule_name with
        | Some rule_meta =>
            dict_set rule_name
              {| stat_category := category_value (category rule_meta);
                 stat_cost := cost_value (cost rule_meta);
                 stat_priority := priority rule_meta;
                 estimated_time_ms := cost_estimates (cost rule_meta) |}
              rule_stats
        | None => rule_stats
        end
  end.

Definition get_rule_execution_stats (self : RuleRouter) (execution_plan : RuleExecutionPlan)
    : ExecutionStats :=
  {| total_rules := Z.of_nat (length (rules_to_execute execution_plan));
     estimated_total_time_ms := estimated_cost execution_plan;
     rule_breakdown := breakdown_loop self (rules_to_execute execution_plan) [];
     stats_early_termination_threshold := early_termination_threshold execution_plan |}.

(** ** Column statistics *)

Definition count {A} (p : A -> bool) (l : list A) : nat := length (List.filter p l).

Definition mean (xs : list Q) : Q := (Qsum xs / Qlen xs)%Q.

(** The square of [std()], pandas' sample standard deviation (ddof = 1). *)
Definition variance (xs : list Q) : Q :=
  let m := mean xs in
  (Qsum (map (fun x => (x - m) * (x - m)) xs) / (Qlen xs - 1))%Q.

(** [cv > 3], where [cv = std / mean if mean != 0 else 0].  The standard
    deviation is not negative, so the quotient exceeds 3 exactly when the
    mean is positive and the variance exceeds [9 * mean^2]. *)
Definition cv_exceeds_3 (xs : list Q) : bool :=
  let m := mean xs in
  if Qeq_bool m 0 then false
  else Qltb 0 m && Qltb (9 * m * m) (variance xs).

(** [x % 1 == 0] *)
Definition is_integral (x : Q) : bool := (Qnum x mod Zpos (Qden x) =? 0).

(** [s.diff().dropna()] on a column without nulls. *)
Fixpoint diff (l : list Z) : list Z :=
  match l with
  | a :: (b :: _) as l' => (b - a) :: diff l'
  | _ => []
  end.

(** [s.value_counts()]: the number of occurrences of each distinct
    non-null value. *)
Definition value_counts (s : Series) : list (Cell * nat) :=
  let vals := dropna s in
  map (fun v => (v, count (cell_eqb v) vals)) (unique vals).

Definition max_count (l : list (Cell * nat)) : nat := fold_right Nat.max 0%nat (map snd l).

Definition one_minute : Z := 60 * 1000000000.
Definition one_day : Z := 86400 * 1000000000.

Section Core.

(** [datetime.now()] *)
Variable now : Z.

(** What [pd.to_datetime] makes of one string or number: its
    timestamp, or [None] when pandas rejects the value. *)
Variable parse_datetime : Cell -> option Z.

Definition to_datetime_cell (c : Cell) : Result (option Z) :=
  match c with
  | CNull => Ok None
  | CTime t => Ok (Some t)
  | _ => match parse_datetime c with
         | Some t => Ok (Some t)
         | None => Raise ValueError
         end
  end.

(** [pd.to_datetime(s)]: one unparseable value raises. *)
Definition to_datetime (s : Series) : Result (list (option Z)) :=
  mapM to_datetime_cell (cells s).

(** *** The built-in signals *)

Definition data_quality_signal : SignalFunc := fun df meta =>
  if (len df =? 0)%nat then Ok None
  else
    let missing_ratio :=
      (inject_Z (Z.of_nat (count_nulls df))
       / inject_Z (Z.of_nat (len df) * Z.of_nat (length (columns df))))%Q in
    let risk_score := pymin (missing_ratio * 2) 1 in
    Ok (Some {| signal_name := "data_quality";
                risk_score := risk_score;
                confidence := 0.8 |}).

Definition file_size_signal : SignalFunc := fun df meta =>
  let row_count := Z.of_nat (len df) in
  let risk_score :=
    if 10000 <? row_count then 0.3%Q
    else if 5000 <? row_count then 0.1%Q
    else 0%Q in
  Ok (Some {| signal_name := "file_size";
              risk_score := risk_score;
              confidence := 0.6 |}).

Definition amount_distribution_signal : SignalFunc := fun df meta =>
  match dict_get "amount" df with
  | None => Ok None
  | Some amount =>
      if isnull_all amount then Ok None
      else
        let amounts := dropna amount in
        if Z.of_nat (length amounts) <? 5 then Ok None
        else
          let risk_score := 0%Q in
          let risk_score :=
            if (nunique amounts =? 1)%nat then (risk_score + 0.4)%Q else risk_score in
          xs ← numbers amounts;
          let risk_score :=
            if cv_exceeds_3 xs then (risk_score + 0.3)%Q else risk_score in
          let round_numbers := (inject_Z (Z.of_nat (count is_integral xs)) / Qlen xs)%Q in
          let risk_score :=
            if Qltb 0.8 round_numbers then (risk_score + 0.2)%Q else risk_score in
          Ok (Some {| signal_name := "amount_distribution";
                      risk_score := pymin risk_score 1;
                      confidence := 0.7 |})
  end.

(** The body of the [try] of [temporal_pattern_signal]. *)
Definition temporal_pattern_body (timestamp : Series) : Result (option FastSignal) :=
  parsed ← to_datetime timestamp;
  let timestamps := omap id parsed in
  if Z.of_nat (length timestamps) <? 5 then Ok None
  else
    let risk_score := 0%Q in
    let time_diff := diff timestamps in
    let risk_score :=
      if (0 <? Z.of_nat (length time_diff))
         && Qltb (Qlen time_diff * 0.8)
                 (inject_Z (Z.of_nat (count (fun d => d <? one_minute) time_diff)))
      then (risk_score + 0.4)%Q else risk_score in
    let future_timestamps := count (fun t => now <? t) timestamps in
    let risk_score :=
      if (0 <? future_timestamps)%nat then (risk_score + 0.3)%Q else risk_score in
    let old_timestamps := count (fun t => t <? now - 365 * one_day) timestamps in
    let risk_score :=
      if Qltb (Qlen timestamps * 0.5) (inject_Z (Z.of_nat old_timestamps))
      then (risk_score + 0.2)%Q else risk_score in
    Ok (Some {| signal_name := "temporal_pattern";
                risk_score := pymin risk_score 1;
                confidence := 0.6 |}).

Definition temporal_pattern_signal : SignalFunc := fun df meta =>
  match dict_get "timestamp" df with
  | None => Ok None
  | Some timestamp =>
      if isnull_all timestamp then Ok None
      else
        match temporal_pattern_body timestamp with
        | Ok r => Ok r
        | Raise _ => Ok None
        end
  end.

Definition user_behavior_signal : SignalFunc := fun df meta =>
  match dict_get "user_id" df with
  | None => Ok None
  | Some user_id =>
      if isnull_all user_id then Ok None
      else
        let user_counts := value_counts user_id in
        if Z.of_nat (length user_counts) <? 2 then Ok None
        else
          let risk_score := 0%Q in
          let max_user_ratio := (inject_Z (Z.of_nat (max_count user_counts)) / Qlen_df df)%Q in
          let risk_score :=
            if Qltb 0.8 max_user_ratio then (risk_score + 0.4)%Q else risk_score in
          let user_diversity := (Qlen user_counts / Qlen_df df)%Q in
          let risk_score :=
            if Qltb 0.9 user_diversity && (100 <? Z.of_nat (len df))
            then (risk_score + 0.2)%Q else risk_score in
          Ok (Some {| signal_name := "user_behavior";
                      risk_score := pymin risk_score 1;
                      confidence := 0.7 |})
  end.

(** The dict built by [_register_default_signals]. *)
Definition fast_signal_engine : FastSignalEngine :=
  {| signals := [ ("data_quality", data_quality_signal);
                  ("file_size", file_size_signal);
                  ("amount_distribution", amount_distribution_signal);
                  ("temporal_pattern", temporal_pattern_signal);
                  ("user_behavior", user_behavior_signal) ] |}.

(** The module-level [rule_router = RuleRouter()]. *)
Definition rule_router : RuleRouter :=
  {| self_rule_registry := rule_registry;
     self_fast_signal_engine := fast_signal_engine |}.

End Core.

(** ** schema_canonicalizer.py *)

(** *** Strings *)

(** [c.lower()] on the ASCII letters. *)
Definition lower_ascii (c : ascii) : ascii :=
  let n := nat_of_ascii c in
  if ((65 <=? n) && (n <=? 90))%nat then ascii_of_nat (n + 32) else c.

Fixpoint lower (s : string) : string :=
  match s with
  | EmptyString => EmptyString
  | String c s' => String (lower_ascii c) (lower s')
  end.

(** The ASCII characters [str.strip()] removes. *)
Definition is_whitespace (c : ascii) : bool :=
  let n := nat_of_ascii c in
  (((9 <=? n) && (n <=? 13)) || ((28 <=? n) && (n <=? 32)))%nat.

Fixpoint lstrip (s : string) : string :=
  match s with
  | EmptyString => EmptyString
  | String c s' => if is_whitespace c then lstrip s' else s
  end.

Definition strip (s : string) : string :=
  String.rev (lstrip (String.rev (lstrip s))).

(** [needle in hay] *)
Fixpoint contains (needle hay : string) : bool :=
  String.prefix needle hay ||
  match hay with
  | EmptyString => false
  | String _ hay' => contains needle hay'
  end.

(** *** Frames under construction *)

(** The index of a frame without rows is taken from the first non-empty
    column assigned to it; the columns it already has are refilled with
    nulls. *)
Definition ensure_valid_index (frame : DataFrame) (value : Series) : DataFrame :=
  if ((len frame =? 0) && (0 <? length (cells value)))%nat
  then map (fun c => (fst c, {| dtype := dtype (snd c);
                               cells := repeat CNull (length (cells value)) |})) frame
  else frame.

(** A column is aligned on the index of the frame it is assigned to. *)
Definition align (n : nat) (value : Series) : Series :=
  {| dtype := dtype value; cells := take n (cells value ++ repeat CNull n) |}.

(** [frame[name] = value] for a column [value]. *)
Definition setitem (frame : DataFrame) (name : string) (value : Series) : DataFrame :=
  let frame := ensure_valid_index frame value in
  match frame with
  | [] => [(name, value)]
  | _ => dict_set name (align (len frame) value) frame
  end.

(** [frame[name] = None] *)
Definition setitem_none (frame : DataFrame) (name : string) : DataFrame :=
  dict_set name {| dtype := DObject; cells := repeat CNull (len frame) |} frame.

(** *** The canonicalizer *)

Record FileMetadata := {
  file_type : string;
  detected_schema : list (string * string);
  md_confidence : Q;
  row_count : Z;
  has_timestamp : bool;
  has_amount : bool;
  has_user_id : bool;
  md_risk_score : PyFloat
}.

Definition field_mappings : list (string * list (string * list string)) :=
  [ ("inventory",
      [ ("id", ["movement_id"; "transaction_id"; "id"]);
        ("timestamp", ["date"; "time"; "datetime"; "timestamp"]);
        ("amount", ["total_value"; "value"; "cost"; "amount"; "price"]);
        ("merchant", ["item_name"; "product"; "item_code"; "merchant"]);
        ("location", ["location"; "warehouse"; "store"]);
        ("user_id", ["employee_id"; "user"; "staff_id"; "user_id"]);
        ("quantity", ["quantity"; "qty"; "count"]) ]);
    ("financial",
      [ ("id", ["transaction_id"; "id"; "txn_id"]);
        ("timestamp", ["timestamp"; "date"; "created_at"; "time"]);
        ("amount", ["amount"; "value"; "total"; "sum"]);
        ("merchant", ["merchant"; "store"; "vendor"; "business"]);
        ("location", ["location"; "address"; "city"; "country"]);
        ("user_id", ["user_id"; "customer_id"; "account_id"; "client_id"]);
        ("payment_method", ["payment_method"; "method"; "type"; "card_type"]);
        ("ip_address", ["ip_address"; "ip"; "client_ip"]);
        ("device_info", ["device_info"; "device"; "user_agent"; "browser"]) ]);
    ("security_logs",
      [ ("id", ["log_id"; "event_id"; "id"]);
        ("timestamp", ["timestamp"; "time"; "datetime"; "created_at"]);
        ("user_id", ["user_id"; "username"; "user"; "account"]);
        ("ip_address", ["ip_address"; "ip"; "source_ip"]);
        ("device_info", ["user_agent"; "device"; "browser"; "os"]);
        ("location", ["location"; "country"; "city"; "region"]) ]) ].

(** [any(indicator in col for col in columns)] *)
Definition any_contains (indicator : string) (columns : list string) : bool :=
  existsb (contains indicator) columns.

(** The score added by a list of indicators, 2 for each one found. *)
Definition indicator_score (indicators columns : list string) : Z :=
  fold_left (fun score indicator =>
               if any_contains indicator columns then score + 2 else score)
            indicators 0.

(** [max(scores, key=scores.get)]: the first key whose score is the
    largest. *)
Fixpoint max_by_score (best : string * Z) (scores : list (string * Z)) : string * Z :=
  match scores with
  | [] => best
  | kv :: scores' => max_by_score (if snd best <? snd kv then kv else best) scores'
  end.

Definition detect_file_type (df : DataFrame) : string * Q :=
  let columns := map (fun col => strip (lower col)) (columns df) in
  let inventory :=
    indicator_score ["item_code"; "movement_id"; "quantity"; "item_name"; "movement_type"] columns in
  let financial :=
    indicator_score ["transaction_id"; "payment_method"; "amount"; "merchant"; "currency"] columns in
  let security_logs :=
    indicator_score ["log_id"; "event_id"; "user_agent"; "source_ip"; "action"] columns in
  let inventory := if any_contains "out" columns then inventory + 1 else inventory in
  let financial :=
    if existsb (fun col => contains "card" col || contains "payment" col) columns
    then financial + 1 else financial in
  let security_logs :=
    if existsb (fun col => contains "login" col || contains "auth" col) columns
    then security_logs + 1 else security_logs in
  let '(best_type, best_score) :=
    max_by_score ("inventory", inventory)
                 [("financial", financial); ("security_logs", security_logs)] in
  let confidence := pymin (inject_Z best_score / 10) 1 in
  (best_type, confidence).

(** The first of [possible_fields] that is a column of [df], with that
    column. *)
Fixpoint first_present (df : DataFrame) (possible_fields : list string)
    : option (string * Series) :=
  match possible_fields with
  | [] => None
  | field :: possible_fields' =>
      match dict_get field df with
      | Some s => Some (field, s)
      | None => first_present df possible_fields'
      end
  end.

(** The loop over the canonical fields. *)
Fixpoint map_fields (df : DataFrame) (mappings : list (string * list string))
    (canonical_df : DataFrame) (detected_schema : list (string * string))
    : DataFrame * list (string * string) :=
  match mappings with
  | [] => (canonical_df, detected_schema)
  | (canonical_field, possible_fields) :: mappings' =>
      match first_present df possible_fields with
      | Some (field, s) =>
          map_fields df mappings'
            (setitem canonical_df canonical_field s)
            (dict_set field canonical_field detected_schema)
      | None =>
          map_fields df mappings' (setitem_none canonical_df canonical_field) detected_schema
      end
  end.

Definition unmapped_cols (df : DataFrame) (detected_schema : list (string * string))
    : list (string * Series) :=
  List.filter (fun c => negb (dict_mem (fst c) detected_schema)) df.

(** The loop over the unmapped columns. *)
Definition add_raw (canonical_df : DataFrame) (cols : list (string * Series)) : DataFrame :=
  fold_left (fun frame c => setitem frame ("raw_" +:+ fst c) (snd c)) cols canonical_df.

(** The canonical frame and the detected schema, as they are at line 147
    of the source. *)
Definition canonical_frame (df : DataFrame) (file_type : string)
    : DataFrame * list (string * string) :=
  let mappings := default [] (dict_get file_type field_mappings) in
  let '(canonical_df, detected_schema) := map_fields df mappings [] [] in
  (add_raw canonical_df (unmapped_cols df detected_schema), detected_schema).

(** [s < 0], cell by cell: a null compares false; a string or a
    timestamp against a number is a [TypeError]. *)
Definition lt_zero (c : Cell) : Result bool :=
  match c with
  | CNull => Ok false
  | CNum q => Ok (Qltb q 0)
  | _ => Raise TypeError
  end.

(** [s.max()] over the numbers of a column. *)
Definition Qmax_list (xs : list Q) : Q :=
  match xs with
  | [] => 0%Q
  | x :: xs' => fold_left pymax xs' x
  end.

(** [s.quantile(q)], by linear interpolation between the two order
    statistics around position [q * (n - 1)]. *)
Definition quantile (xs : list Q) (q : Q) : Q :=
  let v := sorted Qltb id xs in
  let h := ((Qlen xs - 1) * q)%Q in
  let j := Z.to_nat (Qfloor h) in
  let lo := nth j v 0%Q in
  let hi := nth (S j) v lo in
  (lo + (h - inject_Z (Qfloor h)) * (hi - lo))%Q.

Section Canonicalizer.

Variable parse_datetime : Cell -> option Z.

Definition _calculate_risk_score (df : DataFrame) (file_type : string) : Result PyFloat :=
  let risk_score := Fin 0 in
  (* numpy's 0 / 0 is nan, with a warning *)
  let cells_total := (Z.of_nat (len df) * Z.of_nat (length (columns df)))%Z in
  let risk_score :=
    if cells_total =? 0 then NaN
    else fadd risk_score
           (inject_Z (Z.of_nat (count_nulls df)) / inject_Z cells_total * 0.3) in
  risk_score ←
    match dict_get "amount" df with
    | Some amount =>
        if notna_any amount then
          negative ← mapM lt_zero (cells amount);
          let negative_amounts := count id negative in
          let risk_score :=
            if (0 <? negative_amounts)%nat
            then fadd risk_score
                   (pymin (inject_Z (Z.of_nat negative_amounts) / Qlen_df df) 0.2)
            else risk_score in
          xs ← numbers (dropna amount);
          mret (if Qltb (quantile xs 0.99 * 10) (Qmax_list xs)
                then fadd risk_score 0.1 else risk_score)
        else Ok risk_score
    | None => Ok risk_score
    end;
  let risk_score :=
    match dict_get "timestamp" df with
    | Some timestamp =>
        if notna_any timestamp then
          match to_datetime parse_datetime timestamp with
          | Ok _ => risk_score
          | Raise _ => fadd risk_score 0.2
          end
        else risk_score
    | None => risk_score
    end in
  risk_score ←
    (if String.eqb file_type "inventory" then
       match dict_get "quantity" df with
       | Some quantity =>
           negative ← mapM lt_zero (cells quantity);
           mret (if existsb id negative then fadd risk_score 0.1 else risk_score)
       | None => Ok risk_score
       end
     else Ok risk_score);
  mret (fmin risk_score 1).

Definition canonicalize_schema (df : DataFrame) : Result (DataFrame * FileMetadata) :=
  let '(file_type, confidence) := detect_file_type df in
  let '(canonical_df, detected_schema) := canonical_frame df file_type in
  risk_score ← _calculate_risk_score canonical_df file_type;
  timestamp ← getitem canonical_df "timestamp";
  amount ← getitem canonical_df "amount";
  user_id ← getitem canonical_df "user_id";
  mret (canonical_df,
        {| file_type := file_type;
           detected_schema := detected_schema;
           md_confidence := confidence;
           row_count := Z.of_nat (len df);
           has_timestamp := notna_any timestamp;
           has_amount := notna_any amount;
           has_user_id := notna_any user_id;
           md_risk_score := risk_score |}).

End Canonicalizer.

(** * Vocabulary of the statements *)

(** [x] may stand before [y] in a list sorted with [lt] on [key]: [y] is
    not strictly smaller. *)
Definition not_after {A K} (lt : K -> K -> bool) (key : A -> K) (x y : A) : Prop :=
  lt (key y) (key x) = false.

(** A rule passes when each of its predicates returns [True]. *)
Definition passes (df : DataFrame) (file_metadata : Meta) (m : RuleMetadata) : Prop :=
  Forall (fun p => condition p df file_metadata = Ok true) (predicates m).

(** The sort key of a registered rule. *)
Definition sort_key_of (reg : RuleRegistry) (rule_name : string) : Z * string :=
  match get_rule_metadata reg rule_name with
  | Some m => (- priority m, cost_value (cost m))
  | None => (0, EmptyString)
  end.

(** The place of a tier in the order cheap, medium, expensive. *)
Definition cost_rank (c : RuleCost) : Z :=
  match c with
  | CHEAP => 0
  | MEDIUM => 1
  | EXPENSIVE => 2
  end.

(** [a] may be scheduled right before [b]: its tier comes first, or the
    tiers are the same and its priority is not lower. *)
Definition scheduled_before (reg : RuleRegistry) (a b : string) : Prop :=
  exists ma mb,
    get_rule_metadata reg a = Some ma /\ get_rule_metadata reg b = Some mb /\
    (cost_rank (cost ma) < cost_rank (cost mb) \/
     (cost ma = cost mb /\ priority mb <= priority ma)).

(** The aggregate risk the router works with, floored at 0.1. *)
Definition floored_risk (self : RuleRouter) (df : DataFrame) (file_metadata : Meta) : Q :=
  pymax (get_aggregate_risk_score
           (calculate_all_signals (self_fast_signal_engine self) df file_metadata)) 0.1.

(** The key of [sort_by_priority] for a registered rule. *)
Definition priority_key_of (self : RuleRouter) (rule_name : string) : Z :=
  match get_rule_metadata (self_rule_registry self) rule_name with
  | Some m => - priority m
  | None => 0
  end.

(** Each group holds registered rules of its own tier. *)
Definition in_tier (self : RuleRouter) (tier : RuleCost) (rule_name : string) : Prop :=
  exists m, get_rule_metadata (self_rule_registry self) rule_name = Some m /\ cost m = tier.

(** The schedule: each group sorted on priority, cheapest group first. *)
Definition schedule (self : RuleRouter) (rules : list string) : list string :=
  let '(cheap_rules, medium_rules, expensive_rules) := group_by_cost self rules in
  sorted Z.ltb (priority_key_of self) cheap_rules
  ++ sorted Z.ltb (priority_key_of self) medium_rules
  ++ sorted Z.ltb (priority_key_of self) expensive_rules.

(** The plan [create_execution_plan] returns, for any registry and any
    engine: it never raises. *)
Definition plan_of (self : RuleRouter) (df : DataFrame) (file_metadata : Meta)
    : RuleExecutionPlan :=
  let risk := floored_risk self df file_metadata in
  let file_metadata := <["risk_score" := VNum risk]> file_metadata in
  let reg := self_rule_registry self in
  let applicable :=
    sorted key_lt (sort_key_of reg) (applicable_loop df file_metadata (rules reg)) in
  let order :=
    schedule self (_filter_rules_by_risk_and_cost self applicable risk file_metadata) in
  {| rules_to_execute := order;
     estimated_cost := _calculate_estimated_cost self order;
     plan_risk_threshold := 0.3;
     early_termination_threshold := if Qltb 0.7 risk then 0.9%Q else 0.8%Q;
     execution_order := order |}.

(** A signal as the engine's contract has it: a risk in [0,1] and a
    positive weight. *)
Definition bounded_signal (s : FastSignal) : Prop :=
  (0 <= risk_score s <= 1)%Q /\ (0 < confidence s)%Q.

(** Every column has [n] cells. *)
Definition columns_of_length (n : nat) (frame : DataFrame) : Prop :=
  Forall (fun c => length (cells (snd c)) = n) frame.

(** The frame under construction has no row yet, or the rows of the
    source. *)
Definition frame_inv (n : nat) (frame : DataFrame) : Prop :=
  columns_of_length (len frame) frame /\ (len frame = n \/ len frame = 0%nat).

(** The test of [_filter_rules_by_risk_and_cost] on one rule name. *)
Definition kept (self : RuleRouter) (risk_score : Q) (file_metadata : Meta)
    (rule_name : string) : bool :=
  match get_rule_metadata (self_rule_registry self) rule_name with
  | None => false
  | Some rule_meta =>
      negb (cost_eqb (cost rule_meta) EXPENSIVE
            && Qltb risk_score 0.3
            && negb (py_eq_str (file_metadata !! "file_type") "financial"))
      && negb (Qltb risk_score (risk_threshold rule_meta))
  end.

(** The rule is registered and of the given tier. *)
Definition has_tier (self : RuleRouter) (tier : RuleCost) (rule_name : string) : bool :=
  match get_rule_metadata (self_rule_registry self) rule_name with
  | Some rule_meta => cost_eqb (cost rule_meta) tier
  | None => false
  end.

(** How many names of a list are registered rules of the given tier. *)
Definition tier_count (self : RuleRouter) (tier : RuleCost) (rules : list string) : Z :=
  Z.of_nat (count (has_tier self tier) rules).

(** The router of a registry state and an engine. *)
Definition router_of (registered : list RuleMetadata) (engine : FastSignalEngine) : RuleRouter :=
  {| self_rule_registry := registry_after registered; self_fast_signal_engine := engine |}.

(** The rule name is a key of the router's registry. *)
Definition registered_rule (self : RuleRouter) (rule_name : string) : bool :=
  match get_rule_metadata (self_rule_registry self) rule_name with
  | Some _ => true
  | None => false
  end.

(** The sum of the ['estimated_time_ms'] of a breakdown. *)
Definition breakdown_time (d : list (string * RuleStats)) : Z :=
  fold_right Z.add 0 (map (fun e => estimated_time_ms (snd e)) d).

(** How far a signal pulls the weighted mean above 0.8. *)
Definition excess (s : FastSignal) : Q := ((risk_score s - 0.8) * confidence s)%Q.

(** The signal function returns a signal on this input. *)
Definition produces (df : DataFrame) (file_metadata : Meta) (item : string * SignalFunc) : bool :=
  match snd item df file_metadata with
  | Ok (Some _) => true
  | _ => false
  end.

(** The column a canonical field gets: that of the first of its aliases
    the dataset has, or a column of nulls. *)
Definition canonical_column (df : DataFrame) (aliases : list string) : Series :=
  match first_present df aliases with
  | Some (_, s) => s
  | None => {| dtype := DObject; cells := repeat CNull (len df) |}
  end.

(** A frame as it is once it has [n] rows: one without rows yet has its
    columns refilled with [n] nulls. *)
Definition fill (n : nat) (frame : DataFrame) : DataFrame :=
  if ((len frame =? 0) && (0 <? n))%nat
  then map (fun c => (fst c, {| dtype := dtype (snd c); cells := repeat CNull n |})) frame
  else frame.

(** [d[k] = v] for each pair of a list, in order. *)
Definition dict_update {V} (d l : list (string * V)) : list (string * V) :=
  fold_left (fun d p => dict_set (fst p) (snd p) d) l d.

(** The mapping of a file type. *)
Definition mappings_of (file_type : string) : list (string * list string) :=
  default [] (dict_get file_type field_mappings).

(** [col] is the column a canonical field was read from: the first of
    the field's aliases that the dataset has. *)
Definition chosen (df : DataFrame) (mappings : list (string * list string)) (col : string)
    : bool :=
  existsb (fun m => match first_present df (snd m) with
                    | Some (a, _) => String.eqb a col
                    | None => false
                    end) mappings.

(** A column the amount checks accept: floats, with NaN where a value
    is missing, or no value at all. *)
Definition numeric_or_null (c : Cell) : bool :=
  match c with CNull | CNum _ => true | _ => false end.

Definition numeric_column (s : Series) : bool :=
  match dtype s with
  | DNumber => forallb numeric_or_null (cells s)
  | _ => isnull_all s
  end.

(** * Scenarios *)

(** A column of a given dtype. *)
Definition column (d : DType) (l : list Cell) : Series := {| dtype := d; cells := l |}.

(** A rule without predicates. *)
Definition plain_rule (name : string) (cost : RuleCost) (priority : Z) : RuleMetadata :=
  {| name := name; category := BEHAVIORAL; cost := cost; predicates := []; tags := [];
     priority := priority; description := name;
     confidence_threshold := 0.5; risk_threshold := 0 |}.

(** Scenario D: 60 rows, two numeric columns, an amount column of
    extreme variance, and an engine whose only signal reports a risk of
    0.9. *)
Definition scenario_D_df : DataFrame :=
  [ ("amount", column DNumber (CNum 1000000 :: repeat (CNum 1) 59));
    ("quantity", column DNumber (repeat (CNum 2) 60)) ].

(** An engine with one signal, of the given risk and weight 1. *)
Definition forced_engine (risk : Q) : FastSignalEngine :=
  {| signals := [ ("forced", fun _ _ =>
                     Ok (Some {| signal_name := "forced"; risk_score := risk;
                                 confidence := 1 |})) ] |}.

Definition scenario_D_router : RuleRouter :=
  {| self_rule_registry := rule_registry; self_fast_signal_engine := forced_engine 0.9 |}.

(** Six timestamps, ten seconds apart but for the last, one hour later. *)
Definition clustered_timestamps : list Z :=
  [0; 10000000000; 20000000000; 30000000000; 40000000000; 3640000000000].

(** The same timestamps as a datetime column. *)
Definition clustered_df : DataFrame :=
  [("timestamp", column DDatetime (map CTime clustered_timestamps))].

(** A ledger: amounts and a free-text column. *)
Definition ledger_df : DataFrame :=
  [ ("amount", column DNumber [CNum 10; CNum 20; CNum 30]);
    ("note", column DObject [CStr "paid"; CNull; CStr "open"]) ].

(** A security log. *)
Definition security_df : DataFrame :=
  [ ("log_id", column DNumber [CNum 1; CNum 2; CNum 3]);
    ("source_ip", column DObject [CStr "10.0.0.1"; CStr "10.0.0.2"; CStr "10.0.0.1"]);
    ("action", column DObject [CStr "login"; CStr "login"; CStr "logout"]) ].

(** Scenario A: twenty rows, one amount, one merchant, one hour. *)
Definition scenario_A_df : DataFrame :=
  [ ("amount", column DNumber (repeat (CNum 25) 20));
    ("merchant", column DObject (repeat (CStr "cafe") 20));
    ("timestamp", column DDatetime (repeat (CTime 3600000000000) 20)) ].

(** A table without rows. *)
Definition empty_df : DataFrame :=
  [ ("amount", column DNumber []); ("merchant", column DObject []);
    ("timestamp", column DDatetime []) ].

(** A column name as [detect_file_type] reads it. *)
Definition normalized (col : string) : string := strip (lower col).

(** Two tables whose column names differ in case, blanks and order only. *)
Definition shouting_df : DataFrame :=
  [ (" AMOUNT ", column DNumber [CNum 1]); ("Merchant", column DObject [CStr "cafe"]) ].

Definition whispering_df : DataFrame :=
  [ ("merchant", column DObject []); ("amount", column DObject []);
    ("Amount", column DNumber []) ].

(** * Tactics *)

(** Case analysis on every [if] of the goal. *)
Ltac split_ifs :=
  repeat match goal with
         | |- context [if ?c then _ else _] => destruct c
         end.

(** Inequalities between rational constants, by evaluation. *)
Ltac bounded_by_computation :=
  split_ifs; vm_compute; repeat split; discriminate.

(** The excess of a signal built from constants, by evaluation. *)
Ltac excess_by_computation :=
  unfold excess; cbn [risk_score confidence]; split_ifs; vm_compute; discriminate.

(** * Properties *)

(** ** Dictionaries *)

Section DictFacts.
Context {V : Type}.
Implicit Types (d : list (string * V)) (k : string) (v : V).

Lemma dict_get_In d k v : dict_get k d = Some v -> In (k, v) d.
Proof.
  induction d as [|[k' v'] d IH]; simpl; [discriminate|].
  destruct (String.eqb k k') eqn:E.
  - apply String.eqb_eq in E. intros [= ->]. left. congruence.
  - intros H. right. auto.
Qed.

Lemma dict_get_key d k : In k (dict_keys d) -> exists v, dict_get k d = Some v.
Proof.
  induction d as [|[k' v'] d IH]; simpl; [tauto|].
  intros [<-|H].
  - rewrite String.eqb_refl. eauto.
  - destruct (String.eqb k k'); eauto.
Qed.

Lemma dict_get_None d k : dict_get k d = None -> ~ In k (dict_keys d).
Proof.
  intros H Hin. apply dict_get_key in Hin as [v Hv]. congruence.
Qed.

Lemma dict_get_NoDup d k v :
  List.NoDup (dict_keys d) -> In (k, v) d -> dict_get k d = Some v.
Proof.
  induction d as [|[k' v'] d IH]; simpl; [tauto|].
  intros Hnd [[= -> ->]|Hin].
  - now rewrite String.eqb_refl.
  - inversion Hnd as [|? ? Hk Hnd']; subst.
    destruct (String.eqb k k') eqn:E; [|auto].
    apply String.eqb_eq in E. subst k'.
    exfalso. apply Hk. unfold dict_keys. apply in_map_iff. now exists (k, v).
Qed.

Lemma dict_keys_set d k v x :
  In x (dict_keys (dict_set k v d)) <-> x = k \/ In x (dict_keys d).
Proof.
  induction d as [|[k' v'] d IH]; simpl.
  - intuition congruence.
  - destruct (String.eqb k k') eqn:E; simpl.
    + apply String.eqb_eq in E. subst. intuition congruence.
    + rewrite IH. intuition congruence.
Qed.

Lemma dict_set_NoDup d k v :
  List.NoDup (dict_keys d) -> List.NoDup (dict_keys (dict_set k v d)).
Proof.
  induction d as [|[k' v'] d IH]; simpl; intros Hnd.
  - constructor; [simpl; tauto | constructor].
  - inversion Hnd as [|? ? Hk Hnd']; subst.
    destruct (String.eqb k k') eqn:E; simpl.
    + apply String.eqb_eq in E. subst. now constructor.
    + apply String.eqb_neq in E. constructor; [|auto].
      change (~ In k' (dict_keys (dict_set k v d))).
      rewrite dict_keys_set. intros [->|H]; [congruence | exact (Hk H)].
Qed.

Lemma dict_get_set_eq d k v : dict_get k (dict_set k v d) = Some v.
Proof.
  induction d as [|[k' v'] d IH]; simpl.
  - now rewrite String.eqb_refl.
  - destruct (String.eqb k k') eqn:E; simpl.
    + now rewrite String.eqb_refl.
    + now rewrite E.
Qed.

Lemma dict_get_set_ne d k k' v :
  k' <> k -> dict_get k' (dict_set k v d) = dict_get k' d.
Proof.
  intros Hne. induction d as [|[k0 v0] d IH]; simpl.
  - apply String.eqb_neq in Hne. now rewrite Hne.
  - destruct (String.eqb k k0) eqn:E; simpl.
    + apply String.eqb_eq in E. subst k0.
      apply String.eqb_neq in Hne. now rewrite Hne.
    + now rewrite IH.
Qed.
End DictFacts.

(** ** Exceptions and sorting *)

Lemma mapM_Ok {A B} (f : A -> Result B) (g : A -> B) (l : list A) :
  (forall x, In x l -> f x = Ok (g x)) -> mapM f l = Ok (map g l).
Proof.
  induction l as [|a l IH]; intros H; [reflexivity|].
  cbn. rewrite (H a) by (left; reflexivity). cbn.
  fold (mapM f l). rewrite IH by (intros; apply H; now right). reflexivity.
Qed.

Section SortingFacts.
Context {A K : Type} (lt : K -> K -> bool) (key : A -> K).

Lemma sort_insert_perm x l : Permutation (x :: l) (sort_insert lt key x l).
Proof.
  induction l as [|y l IH]; simpl; [reflexivity|].
  destruct (lt (key y) (key x)); [|reflexivity].
  rewrite perm_swap. now constructor.
Qed.

Lemma sorted_perm l : Permutation l (sorted lt key l).
Proof.
  induction l as [|x l IH]; simpl; [reflexivity|].
  rewrite <- sort_insert_perm. now constructor.
Qed.

Lemma sorted_In l x : In x (sorted lt key l) <-> In x l.
Proof.
  split; apply Permutation_in; [symmetry|]; apply sorted_perm.
Qed.

Hypothesis lt_asym : forall a b, lt a b = true -> lt b a = false.
Hypothesis not_lt_trans :
  forall a b c, lt b a = false -> lt c b = false -> lt c a = false.

Lemma sort_insert_sorted x l :
  StronglySorted (not_after lt key) l -> StronglySorted (not_after lt key) (sort_insert lt key x l).
Proof.
  induction 1 as [|y l Hl IH Hy]; simpl.
  - repeat constructor.
  - destruct (lt (key y) (key x)) eqn:E.
    + constructor; [exact IH|].
      rewrite List.Forall_forall. intros z Hz.
      apply (Permutation_in _ (Permutation_sym (sort_insert_perm x l))) in Hz.
      destruct Hz as [<-|Hz]; [now apply lt_asym|].
      rewrite List.Forall_forall in Hy. now apply Hy.
    + constructor; [now constructor|].
      constructor; [exact E|].
      rewrite List.Forall_forall in Hy |- *. intros z Hz.
      unfold not_after in *. eapply not_lt_trans; [exact E | now apply Hy].
Qed.

Lemma sorted_sorted l : StronglySorted (not_after lt key) (sorted lt key l).
Proof.
  induction l as [|x l IH]; simpl; [constructor | now apply sort_insert_sorted].
Qed.
End SortingFacts.

(** Sorting on computed keys is sorting on the key function. *)
Lemma sort_insert_decorated {A K} (lt : K -> K -> bool) (g : A -> K) x (L : list (K * A)) :
  Forall (fun p => fst p = g (snd p)) L ->
  map snd (sort_insert lt fst (g x, x) L) = sort_insert lt g x (map snd L)
  /\ Forall (fun p => fst p = g (snd p)) (sort_insert lt fst (g x, x) L).
Proof.
  induction 1 as [|[k y] L Hk HL IH]; simpl.
  - split; [reflexivity | repeat constructor].
  - simpl in Hk. subst k. destruct (lt (g y) (g x)); simpl.
    + destruct IH as [-> IH2]. split; [reflexivity | now constructor].
    + split; [reflexivity | repeat constructor; assumption].
Qed.

Lemma sorted_decorated {A K} (lt : K -> K -> bool) (g : A -> K) (l : list A) :
  map snd (sorted lt fst (combine (map g l) l)) = sorted lt g l
  /\ Forall (fun p => fst p = g (snd p)) (sorted lt fst (combine (map g l) l)).
Proof.
  induction l as [|x l [IH1 IH2]]; simpl; [split; [reflexivity | constructor]|].
  destruct (sort_insert_decorated lt g x _ IH2) as [-> H2].
  rewrite IH1. now split.
Qed.

Lemma sort_by_key_Ok {A K} (lt : K -> K -> bool) (f : A -> Result K) (g : A -> K) l :
  (forall x, In x l -> f x = Ok (g x)) ->
  sort_by_key lt f l = Ok (sorted lt g l).
Proof.
  intros H. unfold sort_by_key. rewrite (mapM_Ok f g l H). cbn.
  f_equal. apply sorted_decorated.
Qed.

Section SortedLists.
Context {A : Type} (R : A -> A -> Prop).

Lemma StronglySorted_app_In l1 l2 :
  StronglySorted R l1 -> StronglySorted R l2 ->
  (forall x y, In x l1 -> In y l2 -> R x y) ->
  StronglySorted R (l1 ++ l2).
Proof.
  induction 1 as [|x l1 H1 IH Hx]; intros H2 H; simpl; [exact H2|].
  constructor.
  - apply IH; [exact H2 | intros; apply H; [now right | assumption]].
  - apply Forall_app. split; [exact Hx|].
    rewrite List.Forall_forall. intros y Hy. apply H; [now left | exact Hy].
Qed.

Lemma StronglySorted_adjacent l before a b after :
  StronglySorted R l -> l = before ++ a :: b :: after -> R a b.
Proof.
  intros H ->. induction before as [|x before IH]; simpl in H.
  - inversion H as [|? ? _ Ha]; subst. now inversion Ha.
  - apply IH. now inversion H.
Qed.
End SortedLists.

Lemma StronglySorted_impl_In {A} (R R' : A -> A -> Prop) l :
  (forall x y, In x l -> In y l -> R x y -> R' x y) ->
  StronglySorted R l -> StronglySorted R' l.
Proof.
  intros H HS. induction HS as [|x l HS IH Hx]; constructor.
  - apply IH. intros; apply H; simpl; auto.
  - rewrite List.Forall_forall in Hx |- *. intros y Hy.
    apply H; simpl; auto.
Qed.

(** ** Rational numbers and Python comparisons *)

Lemma Qltb_lt a b : Qltb a b = true <-> (a < b)%Q.
Proof.
  unfold Qltb. rewrite negb_true_iff, <- not_true_iff_false, Qle_bool_iff.
  split; [apply Qnot_le_lt | apply Qlt_not_le].
Qed.

Lemma Qltb_ge a b : Qltb a b = false <-> (b <= a)%Q.
Proof. unfold Qltb. rewrite negb_false_iff. apply Qle_bool_iff. Qed.

Lemma pymax_bounds a b : (a <= pymax a b)%Q /\ (b <= pymax a b)%Q.
Proof.
  unfold pymax. destruct (Qltb a b) eqn:E.
  - apply Qltb_lt in E. split; [now apply Qlt_le_weak | apply Qle_refl].
  - apply Qltb_ge in E. split; [apply Qle_refl | exact E].
Qed.

Lemma pymin_bounds a b : (pymin a b <= a)%Q /\ (pymin a b <= b)%Q.
Proof.
  unfold pymin. destruct (Qltb b a) eqn:E.
  - apply Qltb_lt in E. split; [now apply Qlt_le_weak | apply Qle_refl].
  - apply Qltb_ge in E. split; [apply Qle_refl | exact E].
Qed.

Lemma pymin_unit x : (0 <= x)%Q -> (0 <= pymin x 1 <= 1)%Q.
Proof.
  intros H. split; [|apply pymin_bounds].
  unfold pymin. destruct (Qltb 1 x); [discriminate | exact H].
Qed.

Lemma py_eq_str_true v s : py_eq_str v s = true <-> v = Some (VStr s).
Proof.
  destruct v as [[| | |t]|]; simpl; try (split; congruence).
  rewrite String.eqb_eq. split; congruence.
Qed.

Lemma fold_Qplus l a : (fold_left Qplus l a == a + Qsum l)%Q.
Proof.
  unfold Qsum. revert a. induction l as [|x l IH]; intros a; simpl.
  - ring.
  - rewrite IH, (IH (0 + x)%Q). ring.
Qed.

Lemma Qsum_cons x l : (Qsum (x :: l) == x + Qsum l)%Q.
Proof. unfold Qsum at 1. simpl. rewrite fold_Qplus. ring. Qed.

Lemma Qdiv_nonneg a b : (0 <= a)%Q -> (0 <= b)%Q -> (0 <= a / b)%Q.
Proof.
  intros Ha Hb. apply Qmult_le_0_compat; [exact Ha | now apply Qinv_le_0_compat].
Qed.

Lemma inject_nat_nonneg n : (0 <= inject_Z (Z.of_nat n))%Q.
Proof. change 0%Q with (inject_Z 0). rewrite <- Zle_Qle. lia. Qed.

(** ** The canonical frame *)

Lemma len_of_columns n frame :
  columns_of_length n frame -> frame <> [] -> len frame = n.
Proof.
  intros H Hne. destruct frame as [|[k s] frame]; [congruence|].
  now inversion H.
Qed.

Lemma dict_set_columns n frame k v :
  columns_of_length n frame -> length (cells v) = n ->
  columns_of_length n (dict_set k v frame).
Proof.
  intros H Hv. induction H as [|[k' s] frame Hs Hf IH]; simpl.
  - now repeat constructor.
  - destruct (String.eqb k k'); constructor; auto.
Qed.

Lemma dict_set_nonempty {V} k (v : V) d : dict_set k v d <> [].
Proof. destruct d as [|[k' v'] d]; simpl; [|destruct (String.eqb k k')]; discriminate. Qed.

Lemma align_same n value : length (cells value) = n -> align n value = value.
Proof.
  intros H. destruct value as [d l]. unfold align. simpl in *. f_equal.
  rewrite firstn_app, <- H, firstn_all, Nat.sub_diag. simpl. apply app_nil_r.
Qed.

Lemma reindex_columns frame m :
  columns_of_length m
    (map (fun c => (fst c, {| dtype := dtype (snd c); cells := repeat CNull m |})) frame).
Proof.
  unfold columns_of_length. induction frame as [|c frame IH]; simpl; constructor.
  - simpl. apply repeat_length.
  - exact IH.
Qed.

Lemma setitem_columns n frame k v :
  frame_inv n frame -> length (cells v) = n ->
  columns_of_length n (setitem frame k v) /\ len (setitem frame k v) = n.
Proof.
  intros [Hcols Hlen] Hv.
  assert (G : columns_of_length n (setitem frame k v)).
  { unfold setitem, ensure_valid_index.
    destruct ((len frame =? 0)%nat && (0 <? length (cells v))%nat) eqn:E.
    - pose proof (reindex_columns frame (length (cells v))) as Hf'.
      rewrite Hv in *.
      destruct frame as [|c frame]; [now repeat constructor|].
      rewrite (len_of_columns n _ Hf') by discriminate.
      rewrite align_same by exact Hv. now apply dict_set_columns.
    - destruct frame as [|c frame]; [now repeat constructor|].
      assert (Hn : len (c :: frame) = n).
      { destruct Hlen as [Hlen|Hlen]; [exact Hlen|].
        rewrite Hlen in E. simpl in E. apply Nat.ltb_ge in E. lia. }
      rewrite Hn in *. rewrite align_same by exact Hv.
      now apply dict_set_columns. }
  split; [exact G|]. apply len_of_columns; [exact G|].
  unfold setitem. destruct (ensure_valid_index frame v); [discriminate|].
  apply dict_set_nonempty.
Qed.

Lemma setitem_inv n frame k v :
  frame_inv n frame -> length (cells v) = n -> frame_inv n (setitem frame k v).
Proof.
  intros H Hv. destruct (setitem_columns n frame k v H Hv) as [G L].
  split; [now rewrite L | now left].
Qed.

Lemma setitem_none_len frame k : len (setitem_none frame k) = len frame.
Proof.
  unfold setitem_none. destruct frame as [|[k' s] frame]; simpl; [reflexivity|].
  destruct (String.eqb k k'); simpl; [apply repeat_length | reflexivity].
Qed.

Lemma setitem_none_inv n frame k :
  frame_inv n frame -> frame_inv n (setitem_none frame k).
Proof.
  intros [Hcols Hlen]. split; rewrite setitem_none_len; [|exact Hlen].
  unfold setitem_none. apply dict_set_columns; [exact Hcols|].
  simpl. apply repeat_length.
Qed.




Lemma unmapped_cols_nil d : unmapped_cols d [] = d.
Proof.
  unfold unmapped_cols. induction d as [|c d IH]; simpl; [reflexivity|].
  f_equal. exact IH.
Qed.

Section SourceFrame.
Variable df : DataFrame.
Hypothesis df_wf : wf_frame df.

Lemma source_column_length k s : In (k, s) df -> length (cells s) = len df.
Proof.
  intros H. destruct df_wf as [_ Hf]. rewrite List.Forall_forall in Hf.
  exact (Hf (k, s) H).
Qed.

Lemma first_present_length fields field s :
  first_present df fields = Some (field, s) -> length (cells s) = len df.
Proof.
  induction fields as [|f fields IH]; simpl; [discriminate|].
  destruct (dict_get f df) as [s'|] eqn:E; [|exact IH].
  intros [= <- <-]. apply dict_get_In in E. eapply source_column_length, E.
Qed.

Lemma map_fields_inv mappings frame schema :
  frame_inv (len df) frame -> (schema <> [] -> len frame = len df) ->
  let '(frame', schema') := map_fields df mappings frame schema in
  frame_inv (len df) frame' /\ (schema' <> [] -> len frame' = len df).
Proof.
  revert frame schema.
  induction mappings as [|[cf fields] mappings IH]; intros frame schema Hinv Hs; simpl.
  - now split.
  - destruct (first_present df fields) as [[field s]|] eqn:E.
    + apply first_present_length in E. apply IH.
      * now apply setitem_inv.
      * intros _. now apply setitem_columns.
    + apply IH; [now apply setitem_none_inv|].
      now rewrite setitem_none_len.
Qed.

Lemma add_raw_inv cols frame :
  (forall c, In c cols -> In c df) ->
  frame_inv (len df) frame ->
  frame_inv (len df) (add_raw frame cols) /\
  (cols <> [] -> len (add_raw frame cols) = len df).
Proof.
  revert frame. induction cols as [|[k s] cols IH]; intros frame Hsub Hinv.
  - split; [exact Hinv | congruence].
  - assert (Hs : length (cells s) = len df)
      by (apply (source_column_length k); apply Hsub; now left).
    unfold add_raw. cbn [fold_left fst snd].
    pose proof (setitem_columns _ _ ("raw_" +:+ k) s Hinv Hs) as [_ Hlen].
    destruct (IH (setitem frame ("raw_" +:+ k) s)) as [IH1 IH2];
      [intros; apply Hsub; now right | now apply setitem_inv |].
    split; [exact IH1 | intros _].
    destruct cols as [|c cols]; [exact Hlen | apply IH2; discriminate].
Qed.

Lemma canonical_frame_len file_type :
  len (fst (canonical_frame df file_type)) = len df.
Proof.
  unfold canonical_frame.
  pose proof (map_fields_inv (default [] (dict_get file_type field_mappings)) [] []) as H.
  destruct (map_fields df _ [] []) as [frame schema].
  destruct H as [Hinv Hs]; [split; [constructor | now right] | congruence |].
  cbn [fst].
  destruct (add_raw_inv (unmapped_cols df schema) frame) as [[_ Hlen] Hne];
    [intros c Hc; now apply filter_In in Hc | exact Hinv |].
  destruct schema as [|p schema].
  - rewrite unmapped_cols_nil in *.
    destruct df as [|c d] eqn:Edf; [|apply Hne; discriminate].
    simpl in Hlen |- *. destruct Hlen as [Hlen|Hlen]; exact Hlen.
  - assert (Hn : len frame = len df) by (apply Hs; discriminate).
    destruct (unmapped_cols df (p :: schema)) as [|c cols];
      [exact Hn | apply Hne; discriminate].
Qed.
End SourceFrame.

Lemma NoDup_keys_filter {V} (p : string * V -> bool) (d : list (string * V)) :
  List.NoDup (dict_keys d) -> List.NoDup (dict_keys (List.filter p d)).
Proof.
  unfold dict_keys. induction d as [|c d IH]; simpl; intros H; [constructor|].
  inversion H as [|? ? Hc Hd]; subst. destruct (p c); simpl; [|auto].
  constructor; [|auto]. intros Hin. apply Hc.
  apply in_map_iff in Hin as (x & Hx & Hin). apply filter_In in Hin as [Hin _].
  apply in_map_iff. now exists x.
Qed.

Section RawColumns.
Variable n : nat.


End RawColumns.





(** ** Security logs *)

Lemma ensure_valid_index_keys frame v : columns (ensure_valid_index frame v) = columns frame.
Proof.
  unfold ensure_valid_index, columns, dict_keys.
  destruct (_ && _); [|reflexivity]. rewrite map_map. reflexivity.
Qed.

Lemma setitem_keys frame k v x :
  In x (columns (setitem frame k v)) <-> x = k \/ In x (columns frame).
Proof.
  unfold setitem. rewrite <- (ensure_valid_index_keys frame v).
  destruct (ensure_valid_index frame v) as [|c f].
  - simpl. intuition congruence.
  - apply dict_keys_set.
Qed.

Lemma map_fields_keys df mappings frame schema x :
  In x (columns (fst (map_fields df mappings frame schema))) ->
  In x (columns frame) \/ In x (dict_keys mappings).
Proof.
  revert frame schema. induction mappings as [|[cf fields] mappings IH];
    intros frame schema; simpl; [tauto|].
  destruct (first_present df fields) as [[field s]|]; intros H; apply IH in H.
  - rewrite setitem_keys in H. intuition.
  - unfold setitem_none, columns in H. rewrite dict_keys_set in H. intuition.
Qed.

Lemma add_raw_keys cols frame x :
  In x (columns (add_raw frame cols)) ->
  In x (columns frame) \/ exists k, x = "raw_" +:+ k.
Proof.
  revert frame. induction cols as [|[k s] cols IH]; intros frame; [simpl; tauto|].
  unfold add_raw. cbn [fold_left fst snd]. intros H. apply IH in H as [H|H]; [|now right].
  apply setitem_keys in H as [->|H]; eauto.
Qed.

(** The canonical frame of a security log has no ['amount'] column. *)
Lemma security_logs_frame_without_amount df :
  dict_get "amount" (fst (canonical_frame df "security_logs")) = None.
Proof.
  destruct (dict_get "amount" _) as [s|] eqn:E; [exfalso | reflexivity].
  apply dict_get_In in E.
  assert (H : In "amount" (columns (fst (canonical_frame df "security_logs")))).
  { unfold columns, dict_keys. apply in_map_iff. now exists ("amount", s). }
  clear E. unfold canonical_frame in H.
  change (default [] (dict_get "security_logs" field_mappings))
    with [ ("id", ["log_id"; "event_id"; "id"]);
           ("timestamp", ["timestamp"; "time"; "datetime"; "created_at"]);
           ("user_id", ["user_id"; "username"; "user"; "account"]);
           ("ip_address", ["ip_address"; "ip"; "source_ip"]);
           ("device_info", ["user_agent"; "device"; "browser"; "os"]);
           ("location", ["location"; "country"; "city"; "region"]) ] in H.
  set (mappings := _ :: _) in H.
  pose proof (map_fields_keys df mappings [] []) as Hk.
  destruct (map_fields df mappings [] []) as [frame schema]. cbn [fst] in H, Hk.
  apply add_raw_keys in H as [H|[k H]]; [|discriminate H].
  apply Hk in H as [[]|H]. subst mappings. simpl in H.
  intuition discriminate.
Qed.

(** C4. [canonicalize_schema] raises on every dataset it detects as a
    security log: the mapping of that file type has no ['amount'] field,
    and the metadata is built from [canonical_df['amount']].  On a log
    with the columns [log_id], [source_ip] and [action] the exception is
    [KeyError('amount')]. *)
Theorem canonicalize_schema_raises_on_security_logs :
  (forall parse_datetime df,
      fst (detect_file_type df) = "security_logs" ->
      exists e, canonicalize_schema parse_datetime df = Raise e) /\
  fst (detect_file_type security_df) = "security_logs" /\
  (forall parse_datetime,
      canonicalize_schema parse_datetime security_df = Raise (KeyError "amount")).
Proof.
  split; [|split; reflexivity].
  intros parse df Hft. unfold canonicalize_schema.
  destruct (detect_file_type df) as [file_type confidence]. simpl in Hft. subst file_type.
  pose proof (security_logs_frame_without_amount df) as Hnone.
  destruct (canonical_frame df "security_logs") as [frame schema]. cbn [fst] in Hnone.
  unfold getitem. rewrite Hnone.
  destruct (_calculate_risk_score parse frame "security_logs"); [|eauto]. cbn.
  destruct (dict_get "timestamp" frame); cbn; eauto.
Qed.

(** An amount column of strings is another way out: comparing it with 0
    is a [TypeError]. *)
Example canonicalize_schema_raises_on_text_amounts (parse_datetime : Cell -> option Z) :
  canonicalize_schema parse_datetime
    [("amount", column DObject [CStr "ten"; CStr "twenty"])] = Raise TypeError.
Proof. reflexivity. Qed.

(** ** The signal engine *)

Lemma weighted_sum_bounds (l : list FastSignal) :
  Forall bounded_signal l ->
  (0 <= Qsum (map (fun s => risk_score s * confidence s) l)
   <= Qsum (map confidence l))%Q.
Proof.
  induction 1 as [|s l [[H0 H1] Hc] Hl [IH0 IH1]].
  - unfold Qsum; simpl. split; apply Qle_refl.
  - simpl map. rewrite !Qsum_cons.
    assert (0 <= risk_score s * confidence s)%Q
      by (apply Qmult_le_0_compat; [exact H0 | now apply Qlt_le_weak]).
    assert (risk_score s * confidence s <= confidence s)%Q.
    { rewrite <- (Qmult_1_l (confidence s)) at 2.
      apply Qmult_le_compat_r; [exact H1 | now apply Qlt_le_weak]. }
    split; lra.
Qed.

Lemma total_weight_nonneg (l : list FastSignal) :
  Forall bounded_signal l -> (0 <= Qsum (map confidence l))%Q.
Proof.
  intros H. destruct (weighted_sum_bounds l H). now apply Qle_trans with (2 := H1).
Qed.

Lemma aggregate_bounds (l : list FastSignal) :
  Forall bounded_signal l -> (0 <= get_aggregate_risk_score l <= 1)%Q.
Proof.
  intros H. unfold get_aggregate_risk_score.
  destruct l as [|s l]; [split; discriminate|].
  destruct (Qeq_bool (Qsum (map confidence (s :: l))) 0) eqn:E; [split; discriminate|].
  apply Qeq_bool_neq in E.
  destruct (weighted_sum_bounds _ H) as [H0 H1].
  pose proof (total_weight_nonneg _ H) as Hw.
  assert (Hpos : (0 < Qsum (map confidence (s :: l)))%Q).
  { apply Qle_lteq in Hw as [Hw|Hw]; [exact Hw | now symmetry in Hw]. }
  split.
  - apply Qle_shift_div_l; [exact Hpos|]. now rewrite Qmult_0_l.
  - apply Qle_shift_div_r; [exact Hpos|]. now rewrite Qmult_1_l.
Qed.

Lemma calculate_loop_Forall (P : FastSignal -> Prop) df meta items :
  Forall (fun f => forall s, snd f df meta = Ok (Some s) -> P s) items ->
  Forall P (calculate_loop df meta items).
Proof.
  induction 1 as [|[n f] items Hf Hitems IH]; simpl; [constructor|].
  simpl in Hf. destruct (f df meta) as [[s|]|]; [|exact IH..].
  constructor; [now apply Hf | exact IH].
Qed.

Lemma data_quality_bounded df meta s :
  data_quality_signal df meta = Ok (Some s) -> bounded_signal s.
Proof.
  unfold data_quality_signal. destruct (len df =? 0)%nat; [discriminate|].
  intros [= <-]. split; [|reflexivity]. cbn [risk_score]. apply pymin_unit.
  apply Qmult_le_0_compat; [|discriminate].
  apply Qdiv_nonneg; [apply inject_nat_nonneg|].
  change 0%Q with (inject_Z 0). rewrite <- Zle_Qle. lia.
Qed.

Lemma file_size_bounded df meta s :
  file_size_signal df meta = Ok (Some s) -> bounded_signal s.
Proof.
  unfold file_size_signal. intros [= <-]. unfold bounded_signal. cbn [risk_score confidence].
  bounded_by_computation.
Qed.

Lemma amount_distribution_bounded df meta s :
  amount_distribution_signal df meta = Ok (Some s) -> bounded_signal s.
Proof.
  unfold amount_distribution_signal.
  destruct (dict_get "amount" df) as [amount|]; [|discriminate].
  destruct (isnull_all amount); [discriminate|].
  destruct (Z.of_nat (length (dropna amount)) <? 5); [discriminate|].
  destruct (numbers (dropna amount)) as [xs|]; [|discriminate].
  cbn. intros [= <-]. unfold bounded_signal. cbn [risk_score confidence].
  bounded_by_computation.
Qed.

Lemma temporal_pattern_bounded now parse df meta s :
  temporal_pattern_signal now parse df meta = Ok (Some s) -> bounded_signal s.
Proof.
  unfold temporal_pattern_signal, temporal_pattern_body.
  destruct (dict_get "timestamp" df) as [timestamp|]; [|discriminate].
  destruct (isnull_all timestamp); [discriminate|].
  destruct (to_datetime parse timestamp) as [parsed|]; [|discriminate].
  cbn. destruct (Z.of_nat (length (omap id parsed)) <? 5); [discriminate|].
  intros [= <-]. unfold bounded_signal. cbn [risk_score confidence].
  bounded_by_computation.
Qed.

Lemma user_behavior_bounded df meta s :
  user_behavior_signal df meta = Ok (Some s) -> bounded_signal s.
Proof.
  unfold user_behavior_signal.
  destruct (dict_get "user_id" df) as [user_id|]; [|discriminate].
  destruct (isnull_all user_id); [discriminate|].
  destruct (Z.of_nat (length (value_counts user_id)) <? 2); [discriminate|].
  intros [= <-]. unfold bounded_signal. cbn [risk_score confidence].
  bounded_by_computation.
Qed.

Lemma builtin_signals_bounded now parse df meta :
  Forall bounded_signal (calculate_all_signals (fast_signal_engine now parse) df meta).
Proof.
  apply calculate_loop_Forall. unfold fast_signal_engine, signals.
  repeat (apply List.Forall_cons; [intros s; simpl|]); [..|apply List.Forall_nil].
  - apply data_quality_bounded.
  - apply file_size_bounded.
  - apply amount_distribution_bounded.
  - apply temporal_pattern_bounded.
  - apply user_behavior_bounded.
Qed.


(** ** The temporal signal at the 80% mark *)

(** C8. Of the five consecutive differences of [clustered_timestamps],
    four, exactly 80%, are under one minute; a day after the epoch none
    of the timestamps is in the future or older than a year.  The signal
    is computed, and its risk is 0: the count is compared with 80% of
    the number of differences by a strict [>], so the 0.4 of the
    clustering is not added. *)
Theorem temporal_pattern_misses_exactly_80_percent (parse_datetime : Cell -> option Z) :
  length (diff clustered_timestamps) = 5%nat /\
  count (fun d => d <? one_minute) (diff clustered_timestamps) = 4%nat /\
  temporal_pattern_signal one_day parse_datetime clustered_df ∅ =
    Ok (Some {| signal_name := "temporal_pattern"; risk_score := 0; confidence := 0.6 |}).
Proof. repeat split. Qed.

(** What the code does add: strictly more than 80% of the differences
    under one minute put the 0.4 of the clustering into the risk. *)
Lemma temporal_clustering_above_80_percent now parse df meta timestamp parsed :
  dict_get "timestamp" df = Some timestamp ->
  isnull_all timestamp = false ->
  to_datetime parse timestamp = Ok parsed ->
  (5 <= length (omap id parsed))%nat ->
  (Qlen (diff (omap id parsed)) * 0.8
   < inject_Z (Z.of_nat (count (fun d => d <? one_minute) (diff (omap id parsed)))))%Q ->
  exists s,
    temporal_pattern_signal now parse df meta = Ok (Some s) /\ (0.4 <= risk_score s)%Q.
Proof.
  intros Hcol Hnull Hparse Hlen Hcount.
  unfold temporal_pattern_signal, temporal_pattern_body.
  rewrite Hcol, Hnull, Hparse. cbn.
  assert (E5 : (Z.of_nat (length (omap id parsed)) <? 5) = false) by (apply Z.ltb_ge; lia).
  rewrite E5.
  assert (Epos : (0 <? Z.of_nat (length (diff (omap id parsed)))) = true).
  { apply Z.ltb_lt. destruct (diff (omap id parsed)) as [|d l]; [|simpl; lia].
    vm_compute in Hcount. discriminate. }
  apply Qltb_lt in Hcount. rewrite Epos, Hcount. cbn [andb].
  eexists. split; [reflexivity|]. cbn [risk_score].
  split_ifs; vm_compute; discriminate.
Qed.

(** ** The built-in signals on a small dataset *)

Lemma calculate_loop_weight df meta (items : list (string * SignalFunc)) (ws : list Q) :
  Forall2 (fun f w => (0 <= w)%Q /\
                      forall s, snd f df meta = Ok (Some s) -> (confidence s <= w)%Q)
          items ws ->
  (Qsum (map confidence (calculate_loop df meta items)) <= Qsum ws)%Q.
Proof.
  induction 1 as [|[n f] w items ws [Hw Hf] Hrest IH]; [apply Qle_refl|].
  simpl in Hf. rewrite (Qsum_cons w ws). simpl.
  destruct (f df meta) as [[s|]|]; [|lra..].
  simpl map. rewrite Qsum_cons. specialize (Hf s eq_refl). lra.
Qed.

(** A signal of risk 0 and weight 0.6 among bounded signals of total
    weight below 6 keeps the aggregate under 0.9. *)
Lemma aggregate_with_idle_signal (l : list FastSignal) (idle : FastSignal) :
  Forall bounded_signal l -> In idle l ->
  (risk_score idle == 0)%Q -> (confidence idle == 0.6)%Q ->
  (Qsum (map confidence l) < 6)%Q ->
  (get_aggregate_risk_score l < 0.9)%Q.
Proof.
  intros Hb Hin Hr Hc Hw.
  assert (Hsum : (Qsum (map (fun s => risk_score s * confidence s) l)
                  <= Qsum (map confidence l) - 0.6)%Q).
  { clear Hw. induction Hb as [|s l [[H0 H1] Hs] Hl IH]; [destruct Hin|].
    simpl map. rewrite !Qsum_cons. destruct Hin as [->|Hin].
    - destruct (weighted_sum_bounds l Hl) as [_ Hle].
      assert (risk_score idle * confidence idle == 0)%Q by (rewrite Hr; ring).
      lra.
    - specialize (IH Hin).
      assert (risk_score s * confidence s <= confidence s)%Q.
      { rewrite <- (Qmult_1_l (confidence s)) at 2.
        apply Qmult_le_compat_r; [exact H1 | now apply Qlt_le_weak]. }
      lra. }
  unfold get_aggregate_risk_score. destruct l as [|s l]; [destruct Hin|].
  destruct (Qeq_bool (Qsum (map confidence (s :: l))) 0) eqn:E; [reflexivity|].
  apply Qeq_bool_neq in E. pose proof (total_weight_nonneg _ Hb) as Hnn.
  assert (Hpos : (0 < Qsum (map confidence (s :: l)))%Q).
  { apply Qle_lteq in Hnn as [Hnn|Hnn]; [exact Hnn | now symmetry in Hnn]. }
  apply Qlt_shift_div_r; [exact Hpos|]. lra.
Qed.

Lemma signal_confidence_le (f : SignalFunc) (w : Q) df meta :
  (forall s, f df meta = Ok (Some s) -> confidence s = w) ->
  forall s, f df meta = Ok (Some s) -> (confidence s <= w)%Q.
Proof. intros H s Hs. rewrite (H s Hs). apply Qle_refl. Qed.

(** With the built-in signals no dataset of at most 5000 rows has an
    aggregate risk of 0.9: [file_size] reports risk 0 with weight 0.6,
    and the five weights add up to 3.4. *)
Lemma builtin_aggregate_below_09 now parse df meta :
  Z.of_nat (len df) <= 5000 ->
  (get_aggregate_risk_score
     (calculate_all_signals (fast_signal_engine now parse) df meta) < 0.9)%Q.
Proof.
  intros Hrows.
  assert (Hfs : file_size_signal df meta =
                Ok (Some {| signal_name := "file_size"; risk_score := 0; confidence := 0.6 |})).
  { unfold file_size_signal.
    assert (E1 : (10000 <? Z.of_nat (len df)) = false) by (apply Z.ltb_ge; lia).
    assert (E2 : (5000 <? Z.of_nat (len df)) = false) by (apply Z.ltb_ge; lia).
    now rewrite E1, E2. }
  apply (aggregate_with_idle_signal _
           {| signal_name := "file_size"; risk_score := 0; confidence := 0.6 |}).
  - apply builtin_signals_bounded.
  - unfold calculate_all_signals, fast_signal_engine, signals. cbn [calculate_loop].
    rewrite Hfs. destruct (data_quality_signal df meta) as [[s|]|]; simpl; auto.
  - reflexivity.
  - reflexivity.
  - apply Qle_lt_trans with (y := Qsum [0.8; 0.6; 0.7; 0.6; 0.7]%Q); [|reflexivity].
    apply calculate_loop_weight. unfold fast_signal_engine, signals.
    repeat (apply List.Forall2_cons; [split; [discriminate|]; cbn [snd];
                                 apply signal_confidence_le; intros s |]);
      [..|apply List.Forall2_nil].
    + unfold data_quality_signal. destruct (_ =? _)%nat; [discriminate|]. now intros [= <-].
    + unfold file_size_signal. now intros [= <-].
    + unfold amount_distribution_signal.
      destruct (dict_get "amount" df) as [amount|]; [|discriminate].
      destruct (isnull_all amount); [discriminate|].
      destruct (_ <? 5); [discriminate|].
      destruct (numbers (dropna amount)); [|discriminate]. cbn. now intros [= <-].
    + unfold temporal_pattern_signal, temporal_pattern_body.
      destruct (dict_get "timestamp" df) as [timestamp|]; [|discriminate].
      destruct (isnull_all timestamp); [discriminate|].
      destruct (to_datetime parse timestamp); [|discriminate]. cbn.
      destruct (_ <? 5); [discriminate|]. now intros [= <-].
    + unfold user_behavior_signal.
      destruct (dict_get "user_id" df) as [user_id|]; [|discriminate].
      destruct (isnull_all user_id); [discriminate|].
      destruct (_ <? 2); [discriminate|]. now intros [= <-].
Qed.

(** ** The registry *)

Lemma register_rule_NoDup reg m :
  List.NoDup (dict_keys (rules reg)) ->
  List.NoDup (dict_keys (rules (register_rule reg m))).
Proof. apply dict_set_NoDup. Qed.

Lemma fold_register_NoDup registered reg :
  List.NoDup (dict_keys (rules reg)) ->
  List.NoDup (dict_keys (rules (fold_left register_rule registered reg))).
Proof.
  revert reg. induction registered as [|m l IH]; intros reg H; simpl; [exact H|].
  apply IH, register_rule_NoDup, H.
Qed.

(** A registry is a dict: its keys are distinct. *)
Lemma registry_after_NoDup registered :
  List.NoDup (dict_keys (rules (registry_after registered))).
Proof.
  apply fold_register_NoDup. apply fold_register_NoDup. constructor.
Qed.

Lemma all_results_passes df meta m :
  forallb id (map (predicate_result df meta) (predicates m)) = true <-> passes df meta m.
Proof.
  unfold passes. induction (predicates m) as [|p ps IH]; simpl.
  - split; [constructor | reflexivity].
  - rewrite andb_true_iff, IH. unfold predicate_result. split.
    + intros [Hp Hps]. constructor; [|exact Hps].
      destruct (condition p df meta) as [[]|]; simpl in Hp; congruence.
    + intros H. inversion H as [|? ? Hp Hps]; subst. rewrite Hp. now split.
Qed.

Lemma applicable_loop_In df meta items rule_name :
  In rule_name (applicable_loop df meta items) <->
  exists rule_meta, In (rule_name, rule_meta) items /\ passes df meta rule_meta.
Proof.
  induction items as [|[n m] items IH]; simpl.
  - split; [tauto | intros (? & [] & _)].
  - destruct (forallb id (map (predicate_result df meta) (predicates m))) eqn:E; simpl.
    + rewrite IH. split.
      * intros [<-|(m' & Hin & Hp)].
        -- exists m. split; [now left | now apply all_results_passes].
        -- exists m'. split; [now right | exact Hp].
      * intros (m' & [[= <- <-]|Hin] & Hp); [now left | right; eauto].
    + rewrite IH. split.
      * intros (m' & Hin & Hp). exists m'. split; [now right | exact Hp].
      * intros (m' & [[= <- <-]|Hin] & Hp); [|eauto].
        apply all_results_passes in Hp. congruence.
Qed.

Lemma applicable_loop_keys df meta items rule_name :
  In rule_name (applicable_loop df meta items) -> In rule_name (dict_keys items).
Proof.
  rewrite applicable_loop_In. intros (m & Hin & _).
  unfold dict_keys. apply in_map_iff. now exists (rule_name, m).
Qed.

(** The sort of [get_applicable_rules] never raises: every name it sorts
    is a key of the registry. *)
Lemma get_applicable_rules_Ok reg df meta :
  get_applicable_rules reg df meta =
  Ok (sorted key_lt (sort_key_of reg) (applicable_loop df meta (rules reg))).
Proof.
  unfold get_applicable_rules. apply sort_by_key_Ok.
  intros n Hn. apply applicable_loop_keys, dict_get_key in Hn as [m Hm].
  unfold registry_sort_key, sort_key_of, get_rule_metadata. now rewrite Hm.
Qed.


(** ** The order of [get_applicable_rules] *)

(** C2. A medium and an expensive rule of priority 5 are registered, in
    that order, and both apply to the empty dataset:
    [get_applicable_rules] lists the expensive one first, because the
    second sort key is the string ['expensive'], which is smaller than
    ['medium']. *)
Theorem get_applicable_rules_compares_cost_names :
  let reg := registry_after [ plain_rule "velocity_screen" MEDIUM 5;
                              plain_rule "graph_analysis" EXPENSIVE 5 ] in
  get_applicable_rules reg [] ∅ = Ok ["graph_analysis"; "velocity_screen"] /\
  key_lt (-5, cost_value EXPENSIVE) (-5, cost_value MEDIUM) = true.
Proof. split; reflexivity. Qed.

Lemma string_ltb_false s t : String.ltb s t = false <-> String.leb t s = true.
Proof.
  unfold String.ltb, String.leb. rewrite (String.compare_antisym s t).
  destruct (String.compare t s); simpl; split; congruence.
Qed.

Lemma key_lt_false a b :
  key_lt b a = false <->
  fst a <= fst b /\ (fst a = fst b -> String.leb (snd a) (snd b) = true).
Proof.
  unfold key_lt. rewrite orb_false_iff, andb_false_iff, Z.ltb_ge, Z.eqb_neq, string_ltb_false.
  split.
  - intros [H1 [H2|H2]]; split; auto; intros; congruence.
  - intros [H1 H2]. split; [exact H1|].
    destruct (Z.eq_dec (fst b) (fst a)) as [E|E]; [right; auto | left; exact E].
Qed.

Lemma key_lt_asym a b : key_lt a b = true -> key_lt b a = false.
Proof.
  intros H. apply key_lt_false. unfold key_lt in H.
  apply orb_true_iff in H as [H|H].
  - apply Z.ltb_lt in H. split; [lia | intros; lia].
  - apply andb_true_iff in H as [H1 H2]. apply Z.eqb_eq in H1.
    split; [lia | intros _].
    unfold String.ltb in H2. unfold String.leb.
    destruct (String.compare (snd a) (snd b)); congruence.
Qed.

Lemma key_lt_not_trans a b c :
  key_lt b a = false -> key_lt c b = false -> key_lt c a = false.
Proof.
  rewrite !key_lt_false. intros [H1 H2] [H3 H4]. split; [lia | intros E].
  assert (Eab : fst a = fst b) by lia. assert (Ebc : fst b = fst c) by lia.
  specialize (H2 Eab). specialize (H4 Ebc).
  apply Is_true_true. apply Is_true_true in H2, H4.
  exact (transitivity (R := String.le) H2 H4).
Qed.

(** Any two neighbours of the list of applicable rules: the priority
    does not go up, and at equal priority the cost names, as strings, do
    not go down. *)
Lemma get_applicable_rules_order registered df meta before a b after :
  get_applicable_rules (registry_after registered) df meta
    = Ok (before ++ a :: b :: after) ->
  exists ma mb,
    get_rule_metadata (registry_after registered) a = Some ma /\
    get_rule_metadata (registry_after registered) b = Some mb /\
    priority mb <= priority ma /\
    (priority ma = priority mb ->
     String.leb (cost_value (cost ma)) (cost_value (cost mb)) = true).
Proof.
  set (reg := registry_after registered).
  rewrite get_applicable_rules_Ok. intros [= H].
  pose proof (sorted_sorted key_lt (sort_key_of reg) key_lt_asym key_lt_not_trans
                (applicable_loop df meta (rules reg))) as HS.
  assert (Hin : forall x, In x (before ++ a :: b :: after) ->
                          exists m, get_rule_metadata reg x = Some m).
  { intros x Hx. rewrite <- H in Hx.
    apply sorted_In, applicable_loop_keys, dict_get_key in Hx. exact Hx. }
  destruct (Hin a) as [ma Hma]; [apply in_app_iff; right; now left|].
  destruct (Hin b) as [mb Hmb]; [apply in_app_iff; right; right; now left|].
  exists ma, mb. split; [exact Hma|]. split; [exact Hmb|].
  apply (StronglySorted_adjacent _ _ before a b after) in HS; [|exact H].
  unfold not_after in HS. apply key_lt_false in HS.
  unfold sort_key_of in HS. rewrite Hma, Hmb in HS. simpl in HS.
  destruct HS as [H1 H2]. split; [lia | intros E; apply H2; lia].
Qed.

(** Among the built-in rules alone the comparison of the cost names does
    no harm: no medium rule has the priority of the expensive one, so
    at equal priority the list of applicable rules is in the order
    cheap, medium, expensive. *)
Lemma builtin_applicable_rules_ordinal df meta before a b after :
  get_applicable_rules rule_registry df meta = Ok (before ++ a :: b :: after) ->
  exists ma mb,
    get_rule_metadata rule_registry a = Some ma /\
    get_rule_metadata rule_registry b = Some mb /\
    priority mb <= priority ma /\
    (priority ma = priority mb -> cost_rank (cost ma) <= cost_rank (cost mb)).
Proof.
  intros H. apply (get_applicable_rules_order [] df meta) in H.
  destruct H as (ma & mb & Ha & Hb & Hprio & Hlex).
  exists ma, mb. repeat split; [exact Ha | exact Hb | exact Hprio |].
  apply dict_get_In in Ha, Hb.
  change (rules (registry_after [])) with
    [ ("high_value_transactions", high_value_transactions);
      ("duplicate_transactions", duplicate_transactions);
      ("off_hours_transactions", off_hours_transactions);
      ("rapid_successive_transactions", rapid_successive_transactions);
      ("anomaly_detection", anomaly_detection);
      ("inventory_movement_anomalies", inventory_movement_anomalies) ] in Ha, Hb.
  simpl in Ha, Hb.
  repeat (destruct Ha as [Ha|Ha]; [injection Ha as _ <-|]); [..|destruct Ha];
    (repeat (destruct Hb as [Hb|Hb]; [injection Hb as _ <-|]); [..|destruct Hb]);
    intros E; try discriminate E; specialize (Hlex E);
    vm_compute in Hlex |- *; congruence.
Qed.

(** ** The router *)

Lemma cost_eqb_eq a b : cost_eqb a b = true <-> a = b.
Proof. destruct a, b; simpl; split; congruence. Qed.

Lemma filter_rules_In self rules risk meta rule_name :
  In rule_name (_filter_rules_by_risk_and_cost self rules risk meta) ->
  In rule_name rules /\
  exists rule_meta,
    get_rule_metadata (self_rule_registry self) rule_name = Some rule_meta /\
    (cost_eqb (cost rule_meta) EXPENSIVE && Qltb risk 0.3
     && negb (py_eq_str (meta !! "file_type") "financial") = false) /\
    Qltb risk (risk_threshold rule_meta) = false.
Proof.
  induction rules as [|n rules IH]; simpl; [tauto|].
  destruct (get_rule_metadata (self_rule_registry self) n) as [m|] eqn:Hm.
  - destruct (cost_eqb (cost m) EXPENSIVE && Qltb risk 0.3
              && negb (py_eq_str (meta !! "file_type") "financial")) eqn:E1;
      [intros H; apply IH in H; tauto|].
    destruct (Qltb risk (risk_threshold m)) eqn:E2;
      [intros H; apply IH in H; tauto|].
    intros [<-|H]; [|apply IH in H; tauto].
    split; [now left | eauto].
  - intros H; apply IH in H; tauto.
Qed.

Lemma group_by_cost_tiers self rules :
  let '(cheap_rules, medium_rules, expensive_rules) := group_by_cost self rules in
  Forall (fun n => In n rules /\ in_tier self CHEAP n) cheap_rules /\
  Forall (fun n => In n rules /\ in_tier self MEDIUM n) medium_rules /\
  Forall (fun n => In n rules /\ in_tier self EXPENSIVE n) expensive_rules.
Proof.
  induction rules as [|n rules IH]; simpl; [repeat constructor|].
  destruct (group_by_cost self rules) as [[c m] e].
  destruct IH as (Hc & Hm & He).
  assert (W : forall tier l,
             Forall (fun n => In n rules /\ in_tier self tier n) l ->
             Forall (fun n0 => (n = n0 \/ In n0 rules) /\ in_tier self tier n0) l).
  { intros tier l. apply List.Forall_impl. tauto. }
  destruct (get_rule_metadata (self_rule_registry self) n) as [meta|] eqn:Hn.
  - destruct (cost_eqb (cost meta) CHEAP) eqn:E1.
    + apply cost_eqb_eq in E1. repeat split; auto.
      constructor; [|auto]. split; [now left | now exists meta].
    + destruct (cost_eqb (cost meta) MEDIUM) eqn:E2.
      * apply cost_eqb_eq in E2. repeat split; auto.
        constructor; [|auto]. split; [now left | now exists meta].
      * repeat split; auto.
        constructor; [|auto]. split; [now left|]. exists meta. split; [exact Hn|].
        destruct (cost meta); simpl in *; congruence.
  - repeat split; auto.
Qed.

Lemma sort_by_priority_Ok self tier l :
  Forall (in_tier self tier) l ->
  sort_by_priority self l = Ok (sorted Z.ltb (priority_key_of self) l).
Proof.
  intros H. apply sort_by_key_Ok. intros n Hn.
  rewrite List.Forall_forall in H. destruct (H n Hn) as (m & Hm & _).
  unfold priority_sort_key, priority_key_of. now rewrite Hm.
Qed.

Lemma order_rules_Ok self rules df meta :
  _order_rules_for_execution self rules df meta = Ok (schedule self rules).
Proof.
  unfold _order_rules_for_execution, schedule.
  pose proof (group_by_cost_tiers self rules) as H.
  destruct (group_by_cost self rules) as [[c m] e]. destruct H as (Hc & Hm & He).
  assert (W : forall tier l,
             Forall (fun n => In n rules /\ in_tier self tier n) l ->
             Forall (in_tier self tier) l).
  { intros tier l. apply List.Forall_impl. tauto. }
  rewrite (sort_by_priority_Ok self CHEAP c) by auto. cbn.
  rewrite (sort_by_priority_Ok self MEDIUM m) by auto. cbn.
  rewrite (sort_by_priority_Ok self EXPENSIVE e) by auto. reflexivity.
Qed.

Lemma create_execution_plan_Ok self df meta :
  create_execution_plan self df meta =
  (Ok (plan_of self df meta),
   (df, <["risk_score" := VNum (floored_risk self df meta)]> meta)).
Proof.
  unfold create_execution_plan, plan_of, floored_risk.
  rewrite get_applicable_rules_Ok. cbn. rewrite order_rules_Ok. reflexivity.
Qed.

(** One group of the schedule, sorted on priority. *)
Lemma tier_sorted self tier l :
  Forall (in_tier self tier) l ->
  StronglySorted (scheduled_before (self_rule_registry self))
                 (sorted Z.ltb (priority_key_of self) l).
Proof.
  intros Hl.
  apply (StronglySorted_impl_In (not_after Z.ltb (priority_key_of self))).
  - intros x y Hx Hy Hxy. apply sorted_In in Hx, Hy.
    rewrite List.Forall_forall in Hl.
    destruct (Hl x Hx) as (mx & Hmx & Hcx), (Hl y Hy) as (my & Hmy & Hcy).
    exists mx, my. repeat split; [assumption..|]. right. split; [congruence|].
    unfold not_after, priority_key_of in Hxy. rewrite Hmx, Hmy in Hxy.
    apply Z.ltb_ge in Hxy. lia.
  - apply sorted_sorted.
    + intros a b Hab. apply Z.ltb_lt in Hab. apply Z.ltb_ge. lia.
    + intros a b c Hab Hbc. apply Z.ltb_ge in Hab, Hbc. apply Z.ltb_ge. lia.
Qed.

Lemma tiers_in_order self t1 t2 l1 l2 x y :
  cost_rank t1 < cost_rank t2 ->
  Forall (in_tier self t1) l1 -> Forall (in_tier self t2) l2 ->
  In x (sorted Z.ltb (priority_key_of self) l1) ->
  In y (sorted Z.ltb (priority_key_of self) l2) ->
  scheduled_before (self_rule_registry self) x y.
Proof.
  intros Hlt H1 H2 Hx Hy. apply sorted_In in Hx, Hy.
  rewrite List.Forall_forall in H1, H2.
  destruct (H1 x Hx) as (mx & Hmx & Hcx), (H2 y Hy) as (my & Hmy & Hcy).
  exists mx, my. repeat split; [assumption..|]. left. now rewrite Hcx, Hcy.
Qed.

Lemma schedule_sorted self rules :
  StronglySorted (scheduled_before (self_rule_registry self)) (schedule self rules).
Proof.
  unfold schedule. pose proof (group_by_cost_tiers self rules) as H.
  destruct (group_by_cost self rules) as [[c m] e]. destruct H as (Hc & Hm & He).
  assert (W : forall tier l,
             Forall (fun n => In n rules /\ in_tier self tier n) l ->
             Forall (in_tier self tier) l).
  { intros tier l. apply List.Forall_impl. tauto. }
  apply W in Hc, Hm, He.
  apply StronglySorted_app_In; [now apply (tier_sorted self CHEAP)| |].
  - apply StronglySorted_app_In;
      [now apply (tier_sorted self MEDIUM) | now apply (tier_sorted self EXPENSIVE) |].
    intros x y. now apply (tiers_in_order self MEDIUM EXPENSIVE m e).
  - intros x y Hx Hy. apply in_app_or in Hy as [Hy|Hy].
    + now apply (tiers_in_order self CHEAP MEDIUM c m).
    + now apply (tiers_in_order self CHEAP EXPENSIVE c e).
Qed.

Lemma schedule_In self rules rule_name :
  In rule_name (schedule self rules) -> In rule_name rules.
Proof.
  unfold schedule. pose proof (group_by_cost_tiers self rules) as H.
  destruct (group_by_cost self rules) as [[c m] e]. destruct H as (Hc & Hm & He).
  rewrite List.Forall_forall in Hc, Hm, He.
  rewrite !in_app_iff, !sorted_In. intros [H|[H|H]];
    [apply Hc in H | apply Hm in H | apply He in H]; tauto.
Qed.

(** C5. For every registry state, engine, dataset and metadata mapping,
    [create_execution_plan] returns a plan, and any two neighbours
    [a], [b] of its [rules_to_execute] are registered rules such that
    either the tier of [a] comes strictly before the tier of [b] (cheap,
    medium, expensive) or the tiers are equal and the priority of [a] is
    at least that of [b]. *)
Theorem execution_order_by_tier_then_priority
    (registered : list RuleMetadata) (engine : FastSignalEngine)
    (df : DataFrame) (file_metadata : Meta) :
  let reg := registry_after registered in
  let self := {| self_rule_registry := reg; self_fast_signal_engine := engine |} in
  exists plan,
    fst (create_execution_plan self df file_metadata) = Ok plan /\
    forall before a b after,
      rules_to_execute plan = before ++ a :: b :: after ->
      exists ma mb,
        get_rule_metadata reg a = Some ma /\ get_rule_metadata reg b = Some mb /\
        (cost_rank (cost ma) < cost_rank (cost mb) \/
         (cost ma = cost mb /\ priority mb <= priority ma)).
Proof.
  intros reg self. rewrite create_execution_plan_Ok. eexists. split; [reflexivity|].
  intros before a b after H.
  eapply (StronglySorted_adjacent (scheduled_before reg)); [|exact H].
  apply (schedule_sorted self).
Qed.

(** C6. For every registry state, engine, dataset and metadata mapping,
    [create_execution_plan] returns a plan in which every rule is
    registered, is not of the expensive tier when the aggregate risk
    (floored at 0.1) is below 0.3 and the ['file_type'] of the metadata is
    not ['financial'], and has a [risk_threshold] that does not exceed
    that aggregate risk. *)
Theorem plan_respects_risk_and_cost
    (registered : list RuleMetadata) (engine : FastSignalEngine)
    (df : DataFrame) (file_metadata : Meta) :
  let reg := registry_after registered in
  let self := {| self_rule_registry := reg; self_fast_signal_engine := engine |} in
  let aggregate_risk :=
    pymax (get_aggregate_risk_score (calculate_all_signals engine df file_metadata)) 0.1 in
  exists plan,
    fst (create_execution_plan self df file_metadata) = Ok plan /\
    forall rule_name,
      In rule_name (rules_to_execute plan) ->
      exists rule_meta,
        get_rule_metadata reg rule_name = Some rule_meta /\
        ((aggregate_risk < 0.3)%Q ->
         file_metadata !! "file_type" <> Some (VStr "financial") ->
         cost rule_meta <> EXPENSIVE) /\
        (risk_threshold rule_meta <= aggregate_risk)%Q.
Proof.
  intros reg self risk. rewrite create_execution_plan_Ok. eexists. split; [reflexivity|].
  intros rule_name H. cbn in H. apply schedule_In, filter_rules_In in H.
  destruct H as (_ & m & Hm & Hcost & Hthr). exists m. split; [exact Hm|]. split.
  - intros Hrisk Hft Hexp.
    rewrite lookup_insert_ne in Hcost by discriminate.
    rewrite Hexp in Hcost. simpl in Hcost.
    apply Qltb_lt in Hrisk. fold risk in Hcost. unfold self, floored_risk in Hcost.
    cbn in Hcost. fold risk in Hcost. rewrite Hrisk in Hcost. simpl in Hcost.
    apply negb_false_iff, py_eq_str_true in Hcost. contradiction.
  - now apply Qltb_ge in Hthr.
Qed.


(** ** Scenario D *)





(** The built-in signals on the dataset of scenario D: the amount signal
    sees the variance (0.3) and the round amounts (0.2), the aggregate
    risk is 1/6, and the plan holds ['high_value_transactions'] alone,
    with the threshold 0.8; here ['anomaly_detection'] passes its
    predicates and is dropped as an expensive rule of a low-risk file. *)
Example scenario_D_with_builtin_signals (now : Z) (parse_datetime : Cell -> option Z) :
  (exists s,
      amount_distribution_signal scenario_D_df ∅ = Ok (Some s) /\
      (risk_score s == 0.5)%Q) /\
  (get_aggregate_risk_score
     (calculate_all_signals (fast_signal_engine now parse_datetime) scenario_D_df ∅)
   == 1 # 6)%Q /\
  In "anomaly_detection"
     (applicable_loop scenario_D_df (<["risk_score" := VNum (1 # 6)]> ∅)
                      (rules rule_registry)) /\
  exists plan,
    fst (create_execution_plan (rule_router now parse_datetime) scenario_D_df ∅) = Ok plan /\
    rules_to_execute plan = ["high_value_transactions"] /\
    early_termination_threshold plan = 0.8%Q.
Proof.
  split; [eexists; split; [vm_compute; reflexivity | reflexivity]|].
  split; [reflexivity|]. split; [vm_compute; tauto|].
  eexists. split; [vm_compute; reflexivity|]. split; reflexivity.
Qed.

(** ** Registering and looking up rules *)

(** X1. After [register_rule(metadata)], [get_rule_metadata] returns
    that metadata under its name, and every other name gives what it
    gave before. *)
Theorem register_rule_then_get_rule_metadata (reg : RuleRegistry) (metadata : RuleMetadata) :
  get_rule_metadata (register_rule reg metadata) (name metadata) = Some metadata /\
  forall rule_name,
    rule_name <> name metadata ->
    get_rule_metadata (register_rule reg metadata) rule_name = get_rule_metadata reg rule_name.
Proof.
  split; [apply dict_get_set_eq|]. intros rule_name Hne. now apply dict_get_set_ne.
Qed.

Lemma dict_set_keys_mem {V} k (v : V) d :
  dict_mem k d = true -> dict_keys (dict_set k v d) = dict_keys d.
Proof.
  unfold dict_mem. induction d as [|[k' v'] d IH]; simpl; [discriminate|].
  destruct (String.eqb k k') eqn:E; simpl.
  - apply String.eqb_eq in E. now subst.
  - intros H. now rewrite IH.
Qed.

Lemma dict_set_fresh {V} k (v : V) d :
  dict_get k d = None -> dict_set k v d = d ++ [(k, v)].
Proof.
  induction d as [|[k' v'] d IH]; simpl; [reflexivity|].
  destruct (String.eqb k k'); [discriminate|]. intros H. now rewrite IH.
Qed.

(** X2. Registering a name the registry already has replaces the entry
    where it stands: the names and their order do not change.  A new
    name goes to the end. *)
Theorem register_rule_keeps_order (reg : RuleRegistry) (metadata : RuleMetadata) :
  dict_keys (rules (register_rule reg metadata)) =
  match get_rule_metadata reg (name metadata) with
  | Some _ => dict_keys (rules reg)
  | None => dict_keys (rules reg) ++ [name metadata]
  end.
Proof.
  unfold register_rule, get_rule_metadata. cbn [rules].
  destruct (dict_get (name metadata) (rules reg)) eqn:E.
  - apply dict_set_keys_mem. unfold dict_mem. now rewrite E.
  - rewrite dict_set_fresh by exact E. unfold dict_keys. now rewrite map_app.
Qed.

(** ** More on the list of applicable rules *)

Lemma applicable_loop_NoDup df meta items :
  List.NoDup (dict_keys items) -> List.NoDup (applicable_loop df meta items).
Proof.
  induction items as [|[n m] items IH]; simpl; intros H; [constructor|].
  inversion H as [|? ? Hn Hitems]; subst.
  destruct (forallb id _); [|auto].
  constructor; [|auto]. intros Hin. apply Hn. now apply applicable_loop_keys in Hin.
Qed.

Lemma sorted_NoDup {A K} (lt : K -> K -> bool) (key : A -> K) l :
  List.NoDup l -> List.NoDup (sorted lt key l).
Proof. apply Permutation_NoDup, sorted_perm. Qed.

Lemma applicable_NoDup registered df meta :
  List.NoDup (sorted key_lt (sort_key_of (registry_after registered))
                (applicable_loop df meta (rules (registry_after registered)))).
Proof. apply sorted_NoDup, applicable_loop_NoDup, registry_after_NoDup. Qed.

(** X3. For every registry state, the list [get_applicable_rules]
    returns names no rule twice, and along it the priority never goes
    up; where two neighbours have the same priority, the name of the
    first one's cost is not greater, as a string, than the name of the
    second one's. *)
Theorem applicable_rules_by_priority_then_cost_name
    (registered : list RuleMetadata) (df : DataFrame) (file_metadata : Meta) :
  exists applicable,
    get_applicable_rules (registry_after registered) df file_metadata = Ok applicable /\
    List.NoDup applicable /\
    forall before a b after,
      applicable = before ++ a :: b :: after ->
      exists ma mb,
        get_rule_metadata (registry_after registered) a = Some ma /\
        get_rule_metadata (registry_after registered) b = Some mb /\
        priority mb <= priority ma /\
        (priority ma = priority mb ->
         String.leb (cost_value (cost ma)) (cost_value (cost mb)) = true).
Proof.
  eexists. split; [apply get_applicable_rules_Ok|]. split; [apply applicable_NoDup|].
  intros before a b after H.
  apply (get_applicable_rules_order registered df file_metadata before a b after).
  rewrite get_applicable_rules_Ok. now f_equal.
Qed.

(** X4. With the built-in rules alone, the list of applicable rules is
    in the order the comment of the sort promises: priority descending
    and, at equal priority, cheap before medium before expensive. *)
Theorem builtin_applicable_rules_cheaper_first (df : DataFrame) (file_metadata : Meta) :
  exists applicable,
    get_applicable_rules rule_registry df file_metadata = Ok applicable /\
    forall before a b after,
      applicable = before ++ a :: b :: after ->
      exists ma mb,
        get_rule_metadata rule_registry a = Some ma /\
        get_rule_metadata rule_registry b = Some mb /\
        priority mb <= priority ma /\
        (priority ma = priority mb -> cost_rank (cost ma) <= cost_rank (cost mb)).
Proof.
  eexists. split; [apply get_applicable_rules_Ok|].
  intros before a b after H.
  apply (builtin_applicable_rules_ordinal df file_metadata before a b after).
  rewrite get_applicable_rules_Ok. now f_equal.
Qed.

(** ** What the plan holds *)

Lemma filter_rules_as_filter self rules risk meta :
  _filter_rules_by_risk_and_cost self rules risk meta = List.filter (kept self risk meta) rules.
Proof.
  induction rules as [|n rules IH]; simpl; [reflexivity|].
  unfold kept at 1. rewrite IH.
  destruct (get_rule_metadata (self_rule_registry self) n) as [m|]; [|reflexivity].
  destruct (cost_eqb (cost m) EXPENSIVE && Qltb risk 0.3
            && negb (py_eq_str (meta !! "file_type") "financial")); simpl; [reflexivity|].
  now destruct (Qltb risk (risk_threshold m)).
Qed.

Lemma group_by_cost_perm self rules :
  let '(cheap_rules, medium_rules, expensive_rules) := group_by_cost self rules in
  Permutation (cheap_rules ++ medium_rules ++ expensive_rules)
              (List.filter (registered_rule self) rules).
Proof.
  induction rules as [|n rules IH]; simpl; [constructor|].
  destruct (group_by_cost self rules) as [[c m] e].
  unfold registered_rule at 1.
  destruct (get_rule_metadata (self_rule_registry self) n) as [meta|]; [|exact IH].
  destruct (cost_eqb (cost meta) CHEAP); [simpl; now constructor|].
  destruct (cost_eqb (cost meta) MEDIUM).
  - etransitivity; [symmetry; apply Permutation_middle|]. now constructor.
  - rewrite app_assoc. etransitivity; [symmetry; apply Permutation_middle|].
    rewrite <- app_assoc. now constructor.
Qed.

(** The schedule rearranges the registered names it is given, and drops
    the others. *)
Lemma schedule_perm self rules :
  Permutation (schedule self rules) (List.filter (registered_rule self) rules).
Proof.
  unfold schedule. pose proof (group_by_cost_perm self rules) as H.
  destruct (group_by_cost self rules) as [[c m] e].
  rewrite <- H. repeat apply Permutation_app; symmetry; apply sorted_perm.
Qed.

Lemma filter_filter_implied {A} (p q : A -> bool) (l : list A) :
  (forall x, q x = true -> p x = true) ->
  List.filter p (List.filter q l) = List.filter q l.
Proof.
  intros H. induction l as [|x l IH]; simpl; [reflexivity|].
  destruct (q x) eqn:E; [|exact IH]. simpl. now rewrite (H x E), IH.
Qed.

Lemma plan_rules_perm self df meta :
  let risk := floored_risk self df meta in
  let meta' := <["risk_score" := VNum risk]> meta in
  Permutation
    (rules_to_execute (plan_of self df meta))
    (List.filter (kept self risk meta')
       (sorted key_lt (sort_key_of (self_rule_registry self))
          (applicable_loop df meta' (rules (self_rule_registry self))))).
Proof.
  intros risk meta'. unfold plan_of. cbn [rules_to_execute].
  rewrite schedule_perm, filter_rules_as_filter.
  fold risk. fold meta'.
  rewrite filter_filter_implied; [reflexivity|].
  intros n Hn. unfold kept in Hn. unfold registered_rule.
  now destruct (get_rule_metadata (self_rule_registry self) n).
Qed.

Lemma kept_spec self risk meta rule_name :
  kept self risk meta rule_name = true <->
  exists rule_meta,
    get_rule_metadata (self_rule_registry self) rule_name = Some rule_meta /\
    ~ (cost rule_meta = EXPENSIVE /\ (risk < 0.3)%Q /\
       meta !! "file_type" <> Some (VStr "financial")) /\
    (risk_threshold rule_meta <= risk)%Q.
Proof.
  unfold kept.
  destruct (get_rule_metadata (self_rule_registry self) rule_name) as [m|];
    [|split; [discriminate | intros (? & [=] & _)]].
  rewrite andb_true_iff, !negb_true_iff, Qltb_ge.
  rewrite <- not_true_iff_false, !andb_true_iff, cost_eqb_eq, Qltb_lt, negb_true_iff.
  rewrite <- not_true_iff_false, py_eq_str_true.
  split.
  - intros [H1 H2]. exists m. split; [reflexivity|]. split; [tauto | exact H2].
  - intros (m' & [= <-] & H1 & H2). split; [tauto | exact H2].
Qed.


Lemma plan_rules_NoDup registered engine df meta :
  List.NoDup (rules_to_execute (plan_of (router_of registered engine) df meta)).
Proof.
  eapply Permutation_NoDup; [symmetry; apply plan_rules_perm|].
  apply List.NoDup_filter. apply (applicable_NoDup registered).
Qed.

Lemma plan_rules_registered self df meta rule_name :
  In rule_name (rules_to_execute (plan_of self df meta)) ->
  registered_rule self rule_name = true.
Proof.
  intros H. apply (Permutation_in _ (plan_rules_perm self df meta)) in H.
  apply filter_In in H as [_ H]. unfold kept in H. unfold registered_rule.
  now destruct (get_rule_metadata (self_rule_registry self) rule_name).
Qed.

(** ** The estimated cost and the statistics of a plan *)

Lemma estimated_cost_acc self rules acc :
  fold_left (fun total_cost rule_name =>
               match get_rule_metadata (self_rule_registry self) rule_name with
               | Some rule_meta => total_cost + cost_estimates (cost rule_meta)
               | None => total_cost
               end) rules acc
  = acc + _calculate_estimated_cost self rules.
Proof.
  unfold _calculate_estimated_cost. revert acc.
  induction rules as [|n rules IH]; intros acc; simpl; [lia|].
  rewrite IH, (IH (match _ with Some _ => _ | None => _ end)).
  destruct (get_rule_metadata (self_rule_registry self) n); lia.
Qed.

Lemma estimated_cost_cons self n rules :
  _calculate_estimated_cost self (n :: rules) =
  match get_rule_metadata (self_rule_registry self) n with
  | Some rule_meta => cost_estimates (cost rule_meta)
  | None => 0
  end + _calculate_estimated_cost self rules.
Proof.
  unfold _calculate_estimated_cost at 1. simpl. rewrite estimated_cost_acc.
  now destruct (get_rule_metadata (self_rule_registry self) n).
Qed.

Lemma tier_count_cons self tier n rules :
  tier_count self tier (n :: rules) =
  (if has_tier self tier n then 1 else 0) + tier_count self tier rules.
Proof.
  unfold tier_count, count. simpl. destruct (has_tier self tier n); simpl; lia.
Qed.

Lemma estimated_cost_by_tier self rules :
  _calculate_estimated_cost self rules =
  10 * tier_count self CHEAP rules + 100 * tier_count self MEDIUM rules
  + 1000 * tier_count self EXPENSIVE rules.
Proof.
  induction rules as [|n rules IH]; [reflexivity|].
  rewrite estimated_cost_cons, !tier_count_cons, IH. unfold has_tier.
  destruct (get_rule_metadata (self_rule_registry self) n) as [m|]; [|lia].
  destruct (cost m); simpl; lia.
Qed.

Lemma tier_counts_total self rules :
  Forall (fun n => registered_rule self n = true) rules ->
  tier_count self CHEAP rules + tier_count self MEDIUM rules
  + tier_count self EXPENSIVE rules = Z.of_nat (length rules).
Proof.
  induction 1 as [|n rules Hn Hrules IH]; [reflexivity|].
  rewrite !tier_count_cons. cbn [length]. unfold has_tier.
  unfold registered_rule in Hn.
  destruct (get_rule_metadata (self_rule_registry self) n) as [m|]; [|discriminate].
  destruct (cost m); simpl; lia.
Qed.

(** X6. The [estimated_cost] of the plan is 10 for each cheap rule of
    [rules_to_execute], 100 for each medium and 1000 for each expensive
    one; every scheduled rule is counted once, so the cost lies between
    10 and 1000 times the number of scheduled rules. *)
Theorem estimated_cost_counts_tiers
    (registered : list RuleMetadata) (engine : FastSignalEngine)
    (df : DataFrame) (file_metadata : Meta) :
  let self := router_of registered engine in
  exists plan,
    fst (create_execution_plan self df file_metadata) = Ok plan /\
    let cheap := tier_count self CHEAP (rules_to_execute plan) in
    let medium := tier_count self MEDIUM (rules_to_execute plan) in
    let expensive := tier_count self EXPENSIVE (rules_to_execute plan) in
    let n := Z.of_nat (length (rules_to_execute plan)) in
    estimated_cost plan = 10 * cheap + 100 * medium + 1000 * expensive /\
    cheap + medium + expensive = n /\
    10 * n <= estimated_cost plan <= 1000 * n.
Proof.
  intros self. rewrite create_execution_plan_Ok. eexists. split; [reflexivity|].
  cbv zeta. set (plan := plan_of self df file_metadata).
  assert (Hcost : estimated_cost plan =
                  _calculate_estimated_cost self (rules_to_execute plan)) by reflexivity.
  assert (Hreg : Forall (fun n => registered_rule self n = true) (rules_to_execute plan)).
  { apply List.Forall_forall. intros n. apply plan_rules_registered. }
  pose proof (tier_counts_total self _ Hreg) as Htot.
  rewrite Hcost, estimated_cost_by_tier.
  assert (0 <= tier_count self CHEAP (rules_to_execute plan)) by (unfold tier_count; lia).
  assert (0 <= tier_count self MEDIUM (rules_to_execute plan)) by (unfold tier_count; lia).
  assert (0 <= tier_count self EXPENSIVE (rules_to_execute plan)) by (unfold tier_count; lia).
  repeat split; lia.
Qed.

Lemma breakdown_loop_keys self rules acc :
  List.NoDup rules ->
  Forall (fun n => registered_rule self n = true /\ dict_get n acc = None) rules ->
  dict_keys (breakdown_loop self rules acc) = dict_keys acc ++ rules /\
  breakdown_time (breakdown_loop self rules acc)
  = breakdown_time acc + _calculate_estimated_cost self rules.
Proof.
  revert acc. induction rules as [|n rules IH]; intros acc Hnd Hall.
  - simpl. rewrite app_nil_r. unfold _calculate_estimated_cost. simpl. split; [reflexivity | lia].
  - inversion Hnd as [|? ? Hn Hnd']; subst.
    inversion Hall as [|? ? [Hreg Hfresh] Hall']; subst.
    cbn [breakdown_loop]. rewrite estimated_cost_cons.
    unfold registered_rule in Hreg.
    destruct (get_rule_metadata (self_rule_registry self) n) as [m|]; [|discriminate].
    rewrite dict_set_fresh by exact Hfresh.
    destruct (IH (acc ++ [(n, {| stat_category := category_value (category m);
                                 stat_cost := cost_value (cost m);
                                 stat_priority := priority m;
                                 estimated_time_ms := cost_estimates (cost m) |})]) Hnd')
      as [IHk IHt].
    + apply List.Forall_forall. intros x Hx.
      rewrite List.Forall_forall in Hall'. destruct (Hall' x Hx) as [Hr Hf].
      split; [exact Hr|].
      destruct (dict_get x (acc ++ _)) eqn:E; [|reflexivity].
      apply dict_get_In in E. apply in_app_or in E as [E|[E|[]]].
      * apply dict_get_None in Hf. exfalso. apply Hf.
        unfold dict_keys. apply in_map_iff. now exists (x, r).
      * injection E as -> _. contradiction.
    + rewrite IHk, IHt. unfold dict_keys, breakdown_time.
      rewrite !map_app, <- app_assoc. split; [reflexivity|].
      simpl. rewrite fold_right_app. simpl.
      clear. induction acc as [|e acc IHacc]; simpl; lia.
Qed.

(** X7. The statistics of a plan made by [create_execution_plan]: the
    breakdown has one entry for each scheduled rule, in the order of
    the schedule, so ['total_rules'] is its number of entries, and the
    ['estimated_time_ms'] of the entries add up to
    ['estimated_total_time_ms']. *)
Theorem execution_stats_agree_with_plan
    (registered : list RuleMetadata) (engine : FastSignalEngine)
    (df : DataFrame) (file_metadata : Meta) :
  let self := router_of registered engine in
  exists plan,
    fst (create_execution_plan self df file_metadata) = Ok plan /\
    let stats := get_rule_execution_stats self plan in
    dict_keys (rule_breakdown stats) = rules_to_execute plan /\
    total_rules stats = Z.of_nat (length (rule_breakdown stats)) /\
    breakdown_time (rule_breakdown stats) = estimated_total_time_ms stats.
Proof.
  intros self. rewrite create_execution_plan_Ok. eexists. split; [reflexivity|].
  cbv zeta. set (plan := plan_of self df file_metadata).
  destruct (breakdown_loop_keys self (rules_to_execute plan) []) as [Hk Ht].
  - apply plan_rules_NoDup.
  - apply List.Forall_forall. intros n Hn.
    split; [now apply (plan_rules_registered self df file_metadata) | reflexivity].
  - change (dict_keys [] ++ rules_to_execute plan) with (rules_to_execute plan) in Hk.
    unfold get_rule_execution_stats.
    cbn [rule_breakdown total_rules estimated_total_time_ms].
    split; [exact Hk|]. split.
    + rewrite <- Hk at 1. unfold dict_keys. now rewrite length_map.
    + rewrite Ht. reflexivity.
Qed.

(** Names the registry does not know are counted in ['total_rules'] and
    left out of the breakdown; a name listed twice has one entry. *)
Example execution_stats_of_a_foreign_plan :
  let plan := {| rules_to_execute := ["no_such_rule"; "anomaly_detection"; "anomaly_detection"];
                 estimated_cost := 0; plan_risk_threshold := 0.3;
                 early_termination_threshold := 0.8;
                 execution_order := [] |} in
  let stats := get_rule_execution_stats scenario_D_router plan in
  total_rules stats = 3 /\ dict_keys (rule_breakdown stats) = ["anomaly_detection"].
Proof. split; reflexivity. Qed.

(** ** How high the built-in signals can go *)

Lemma excess_sum (l : list FastSignal) :
  (Qsum (map excess l) ==
   Qsum (map (fun s => risk_score s * confidence s) l) - 0.8 * Qsum (map confidence l))%Q.
Proof.
  induction l as [|s l IH]; [reflexivity|].
  simpl map. rewrite !Qsum_cons, IH. unfold excess. ring.
Qed.

Lemma aggregate_below_08 (l : list FastSignal) :
  Forall bounded_signal l -> l <> [] -> (Qsum (map excess l) < 0)%Q ->
  (get_aggregate_risk_score l < 0.8)%Q.
Proof.
  intros Hb Hne Hex. rewrite excess_sum in Hex.
  unfold get_aggregate_risk_score. destruct l as [|s l]; [congruence|].
  destruct (Qeq_bool (Qsum (map confidence (s :: l))) 0) eqn:E; [reflexivity|].
  apply Qeq_bool_neq in E. pose proof (total_weight_nonneg _ Hb) as Hnn.
  assert (Hpos : (0 < Qsum (map confidence (s :: l)))%Q).
  { apply Qle_lteq in Hnn as [Hnn|Hnn]; [exact Hnn | now symmetry in Hnn]. }
  apply Qlt_shift_div_r; [exact Hpos|]. lra.
Qed.

Lemma calculate_loop_excess df meta (items : list (string * SignalFunc)) (bs : list Q) :
  Forall2 (fun f b => match snd f df meta with
                      | Ok (Some s) => (excess s <= b)%Q
                      | _ => (0 <= b)%Q
                      end) items bs ->
  (Qsum (map excess (calculate_loop df meta items)) <= Qsum bs)%Q.
Proof.
  induction 1 as [|[n f] b items bs Hf Hrest IH]; [apply Qle_refl|].
  simpl in Hf. rewrite (Qsum_cons b bs). simpl.
  destruct (f df meta) as [[s|]|]; [|lra..].
  simpl map. rewrite Qsum_cons. lra.
Qed.

Lemma builtin_excess now parse df meta :
  (Qsum (map excess (calculate_all_signals (fast_signal_engine now parse) df meta)) < 0)%Q.
Proof.
  apply Qle_lt_trans with (y := Qsum [0.16; -0.30; 0.07; 0.06; 0]%Q); [|reflexivity].
  apply calculate_loop_excess. unfold fast_signal_engine, signals.
  repeat (apply List.Forall2_cons; [cbn [snd]|]); [..|apply List.Forall2_nil].
  - destruct (data_quality_signal df meta) as [[s|]|] eqn:E; [|discriminate..].
    pose proof (data_quality_bounded df meta s E) as [[_ H1] _].
    unfold data_quality_signal in E. destruct (_ =? _)%nat; [discriminate|].
    injection E as <-. unfold excess in *. cbn [risk_score confidence] in *. lra.
  - unfold file_size_signal. excess_by_computation.
  - unfold amount_distribution_signal.
    destruct (dict_get "amount" df) as [amount|]; [|discriminate].
    destruct (isnull_all amount); [discriminate|].
    destruct (_ <? 5); [discriminate|].
    destruct (numbers (dropna amount)); [|discriminate]. cbn. excess_by_computation.
  - unfold temporal_pattern_signal, temporal_pattern_body.
    destruct (dict_get "timestamp" df) as [timestamp|]; [|discriminate].
    destruct (isnull_all timestamp); [discriminate|].
    destruct (to_datetime parse timestamp); [|discriminate]. cbn.
    destruct (_ <? 5); [discriminate|]. excess_by_computation.
  - unfold user_behavior_signal.
    destruct (dict_get "user_id" df) as [user_id|]; [|discriminate].
    destruct (isnull_all user_id); [discriminate|].
    destruct (_ <? 2); [discriminate|]. excess_by_computation.
Qed.

Lemma builtin_signals_nonempty now parse df meta :
  calculate_all_signals (fast_signal_engine now parse) df meta <> [].
Proof.
  unfold calculate_all_signals, fast_signal_engine, signals. cbn [calculate_loop].
  unfold file_size_signal at 1.
  destruct (data_quality_signal df meta) as [[s|]|]; discriminate.
Qed.

Lemma builtin_aggregate_range now parse df meta :
  (0 <= get_aggregate_risk_score
          (calculate_all_signals (fast_signal_engine now parse) df meta) < 0.8)%Q.
Proof.
  split.
  - apply aggregate_bounds, builtin_signals_bounded.
  - apply aggregate_below_08;
      [apply builtin_signals_bounded | apply builtin_signals_nonempty | apply builtin_excess].
Qed.


(** ** When the expensive rule runs, and when a plan starts terminated *)

Lemma In_builtin_registry rule_name m :
  In (rule_name, m) (rules rule_registry) ->
  get_rule_metadata rule_registry rule_name = Some m.
Proof. apply dict_get_NoDup, (registry_after_NoDup []). Qed.

(** X9. With the built-in registry and signals, ['anomaly_detection']
    is scheduled exactly when the dataset has at least 50 rows and at
    least 2 numeric columns and the file is not a low-risk one: the
    floored aggregate risk is at least 0.3, or the ['file_type'] of the
    metadata is ['financial'].  Its third predicate,
    [not_high_risk_already], never stands in the way, the risk being
    below 0.8. *)
Theorem builtin_anomaly_detection_scheduled_iff
    (now : Z) (parse_datetime : Cell -> option Z) (df : DataFrame) (file_metadata : Meta) :
  let risk :=
    pymax (get_aggregate_risk_score
             (calculate_all_signals (fast_signal_engine now parse_datetime) df file_metadata))
          0.1 in
  exists plan,
    fst (create_execution_plan (rule_router now parse_datetime) df file_metadata) = Ok plan /\
    (In "anomaly_detection" (rules_to_execute plan) <->
     (50 <= len df)%nat /\ (2 <= length (numeric_columns df))%nat /\
     ((0.3 <= risk)%Q \/ file_metadata !! "file_type" = Some (VStr "financial"))).
Proof.
  intros risk. rewrite create_execution_plan_Ok. eexists. split; [reflexivity|]. cbn [fst].
  set (self := rule_router now parse_datetime).
  pose proof (plan_rules_perm self df file_metadata) as Hperm. cbv zeta in Hperm.
  change (floored_risk self df file_metadata) with risk in Hperm.
  assert (Hlow : (risk < 0.8)%Q).
  { destruct (builtin_aggregate_range now parse_datetime df file_metadata) as [_ H].
    unfold risk, pymax. destruct (Qltb _ 0.1); [reflexivity | exact H]. }
  assert (Hfloor : (0 <= risk)%Q).
  { apply Qle_trans with (y := 0.1%Q); [discriminate | apply pymax_bounds]. }
  split.
  - intros Hin. apply (Permutation_in _ Hperm) in Hin.
    apply filter_In in Hin as [Hin Hkept].
    apply sorted_In, applicable_loop_In in Hin as (m & Hm & Hp).
    apply In_builtin_registry in Hm. change (Some anomaly_detection = Some m) in Hm.
    injection Hm as <-.
    apply kept_spec in Hkept as (m' & Hm' & Hcost & _).
    change (Some anomaly_detection = Some m') in Hm'. injection Hm' as <-.
    unfold passes in Hp. cbn [predicates anomaly_detection] in Hp.
    pose proof (Forall_inv Hp) as H1.
    pose proof (Forall_inv (Forall_inv_tail Hp)) as H2.
    cbn [condition] in H1, H2. injection H1 as H1. injection H2 as H2.
    apply Z.leb_le in H1, H2. split; [lia|]. split; [lia|].
    rewrite lookup_insert_ne in Hcost by discriminate.
    destruct (Qlt_le_dec risk 0.3) as [Hr|Hr]; [|now left]. right.
    destruct (py_eq_str (file_metadata !! "file_type") "financial") eqn:E;
      [now apply py_eq_str_true|].
    exfalso. apply Hcost. repeat split; [exact Hr|].
    intros Heq. apply py_eq_str_true in Heq. congruence.
  - intros (Hrows & Hnum & Hrisk).
    apply (Permutation_in _ (Permutation_sym Hperm)). apply filter_In. split.
    + apply sorted_In, applicable_loop_In. exists anomaly_detection.
      split; [vm_compute; tauto|].
      unfold passes. cbn [predicates anomaly_detection].
      repeat (apply List.Forall_cons; [cbn [condition]|]); [..|apply List.Forall_nil].
      * f_equal. apply Z.leb_le. lia.
      * f_equal. apply Z.leb_le. lia.
      * rewrite lookup_insert_eq. cbn. f_equal. now apply Qltb_lt.
    + apply kept_spec. exists anomaly_detection. split; [reflexivity|]. split.
      * rewrite lookup_insert_ne by discriminate. intros (_ & Hr & Hft).
        destruct Hrisk as [Hrisk|Hrisk]; [|contradiction].
        apply Qlt_not_le in Hr. contradiction.
      * exact Hfloor.
Qed.

(** X10. For every registry state, engine, dataset and metadata mapping:
    the threshold of the plan is 0.9 when the floored aggregate risk
    exceeds 0.7 and 0.8 otherwise, so [should_terminate_early], asked
    with that risk and that threshold before any rule has run, says
    yes exactly when the risk is at least 0.9. *)
Theorem plan_starts_terminated_iff_risk_09
    (registered : list RuleMetadata) (engine : FastSignalEngine)
    (df : DataFrame) (file_metadata : Meta) :
  let risk :=
    pymax (get_aggregate_risk_score (calculate_all_signals engine df file_metadata)) 0.1 in
  exists plan,
    fst (create_execution_plan (router_of registered engine) df file_metadata) = Ok plan /\
    early_termination_threshold plan = (if Qltb 0.7 risk then 0.9 else 0.8)%Q /\
    (should_terminate_early risk (early_termination_threshold plan) = true <->
     (0.9 <= risk)%Q).
Proof.
  intros risk. rewrite create_execution_plan_Ok. eexists. split; [reflexivity|].
  cbn [fst early_termination_threshold plan_of].
  change (floored_risk (router_of registered engine) df file_metadata) with risk.
  split; [reflexivity|]. unfold should_terminate_early. rewrite Qle_bool_iff.
  destruct (Qltb 0.7 risk) eqn:E; [tauto|].
  apply Qltb_ge in E. split; intros H; exfalso; lra.
Qed.

(** ** The batch of signals *)

Lemma calculate_loop_app df meta (a b : list (string * SignalFunc)) :
  calculate_loop df meta (a ++ b) = calculate_loop df meta a ++ calculate_loop df meta b.
Proof.
  induction a as [|[n f] a IH]; simpl; [reflexivity|].
  destruct (f df meta) as [[s|]|]; simpl; now rewrite IH.
Qed.

(** X11. Each signal function is evaluated on its own: the signals of a
    table of functions are those of its first part followed by those of
    the rest, and one function gives its signal when it returns one and
    nothing when it returns [None] or raises; so a function that fails
    takes no other signal with it. *)
Theorem signals_are_computed_independently (df : DataFrame) (file_metadata : Meta) :
  (forall a b,
      calculate_all_signals {| signals := a ++ b |} df file_metadata =
      calculate_all_signals {| signals := a |} df file_metadata
      ++ calculate_all_signals {| signals := b |} df file_metadata) /\
  (forall signal_name signal_func,
      calculate_all_signals {| signals := [(signal_name, signal_func)] |} df file_metadata =
      match signal_func df file_metadata with
      | Ok (Some signal_result) => [signal_result]
      | Ok None => []
      | Raise _ => []
      end).
Proof.
  split.
  - intros a b. apply calculate_loop_app.
  - intros n f. unfold calculate_all_signals. simpl.
    now destruct (f df file_metadata) as [[s|]|].
Qed.

Lemma calculate_loop_names df meta (items : list (string * SignalFunc)) :
  Forall (fun item => forall s, snd item df meta = Ok (Some s) -> signal_name s = fst item)
         items ->
  map signal_name (calculate_loop df meta items)
  = dict_keys (List.filter (produces df meta) items).
Proof.
  induction 1 as [|[n f] items Hf Hitems IH]; [reflexivity|].
  simpl. unfold produces at 1. simpl in Hf |- *.
  destruct (f df meta) as [[s|]|]; [|exact IH..].
  simpl. now rewrite (Hf s eq_refl), IH.
Qed.

Lemma builtin_signal_names now parse df meta :
  map signal_name (calculate_all_signals (fast_signal_engine now parse) df meta)
  = dict_keys (List.filter (produces df meta) (signals (fast_signal_engine now parse))).
Proof.
  apply calculate_loop_names. unfold fast_signal_engine, signals.
  repeat (apply List.Forall_cons; [intros s; cbn [fst snd]|]); [..|apply List.Forall_nil].
  - unfold data_quality_signal. destruct (_ =? _)%nat; [discriminate|]. now intros [= <-].
  - unfold file_size_signal. now intros [= <-].
  - unfold amount_distribution_signal.
    destruct (dict_get "amount" df) as [amount|]; [|discriminate].
    destruct (isnull_all amount); [discriminate|].
    destruct (_ <? 5); [discriminate|].
    destruct (numbers (dropna amount)); [|discriminate]. cbn. now intros [= <-].
  - unfold temporal_pattern_signal, temporal_pattern_body.
    destruct (dict_get "timestamp" df) as [timestamp|]; [|discriminate].
    destruct (isnull_all timestamp); [discriminate|].
    destruct (to_datetime parse timestamp); [|discriminate]. cbn.
    destruct (_ <? 5); [discriminate|]. now intros [= <-].
  - unfold user_behavior_signal.
    destruct (dict_get "user_id" df) as [user_id|]; [|discriminate].
    destruct (isnull_all user_id); [discriminate|].
    destruct (_ <? 2); [discriminate|]. now intros [= <-].
Qed.

(** X12. The built-in batch: no two signals have the same name, every
    name is one of the five registered ones, ['file_size'] is always
    there (so the batch is never empty and the aggregate is always the
    weighted mean), and ['data_quality'] is there exactly when the
    dataset has a row. *)
Theorem builtin_signal_batch
    (now : Z) (parse_datetime : Cell -> option Z) (df : DataFrame) (file_metadata : Meta) :
  let names :=
    map signal_name
        (calculate_all_signals (fast_signal_engine now parse_datetime) df file_metadata) in
  List.NoDup names /\
  (forall n, In n names ->
             In n ["data_quality"; "file_size"; "amount_distribution";
                   "temporal_pattern"; "user_behavior"]) /\
  In "file_size" names /\
  (In "data_quality" names <-> len df <> 0%nat).
Proof.
  intros names. unfold names. rewrite builtin_signal_names.
  set (items := signals (fast_signal_engine now parse_datetime)).
  assert (Hnd : List.NoDup (dict_keys items)).
  { subst items. repeat constructor; simpl; intuition discriminate. }
  split; [now apply NoDup_keys_filter|]. split; [|split].
  - intros n Hn. unfold dict_keys in Hn. apply in_map_iff in Hn as (item & <- & Hin).
    apply filter_In in Hin as [Hin _]. subst items. simpl in Hin.
    repeat (destruct Hin as [<-|Hin]; [simpl; tauto|]). destruct Hin.
  - unfold dict_keys. apply in_map_iff. exists ("file_size", file_size_signal).
    split; [reflexivity|]. apply filter_In. split; [subst items; simpl; tauto | reflexivity].
  - unfold dict_keys. rewrite in_map_iff. split.
    + intros (item & Hname & Hin). apply filter_In in Hin as [Hin Hp].
      subst items. simpl in Hin.
      repeat (destruct Hin as [<-|Hin]; [try discriminate Hname|]); [|destruct Hin].
      unfold produces, data_quality_signal in Hp. cbn [snd] in Hp.
      intros H0. rewrite H0 in Hp. discriminate.
    + intros Hrows. exists ("data_quality", data_quality_signal).
      split; [reflexivity|]. apply filter_In. split; [subst items; simpl; tauto|].
      unfold produces, data_quality_signal. cbn [snd].
      apply Nat.eqb_neq in Hrows. now rewrite Hrows.
Qed.

(** ** Identical amounts *)

Lemma numbers_of_numbers xs : numbers (map CNum xs) = Ok xs.
Proof.
  unfold numbers. rewrite (mapM_Ok as_number (fun c => match c with CNum q => q | _ => 0%Q end)).
  - f_equal. rewrite map_map. apply map_id.
  - intros c Hc. apply in_map_iff in Hc as (q & <- & _). reflexivity.
Qed.

Lemma unique_In l c : In c (unique l) -> In c l.
Proof.
  revert c. induction l as [|x l IH]; intros c; simpl; [tauto|].
  intros [<-|H]; [now left|]. apply filter_In in H as [H _]. right. auto.
Qed.

Lemma filter_none {A} (p : A -> bool) (l : list A) :
  (forall x, In x l -> p x = false) -> List.filter p l = [].
Proof.
  induction l as [|x l IH]; intros H; simpl; [reflexivity|].
  rewrite (H x) by (now left). apply IH. intros; apply H; now right.
Qed.

Lemma nunique_identical x xs :
  xs <> [] -> (forall y, In y xs -> (y == x)%Q) -> nunique (map CNum xs) = 1%nat.
Proof.
  intros Hne Hall. unfold nunique.
  assert (Hf : List.filter notna (map CNum xs) = map CNum xs).
  { clear. induction xs as [|y xs IH]; simpl; [reflexivity | now rewrite IH]. }
  rewrite Hf. destruct xs as [|x0 xs]; [congruence|]. cbn [map unique].
  assert (Hnil : List.filter (fun c => negb (cell_eqb (CNum x0) c)) (unique (map CNum xs)) = []).
  { apply filter_none. intros c Hc. apply unique_In, in_map_iff in Hc as (y & <- & Hy).
    simpl. apply negb_false_iff, Qeq_bool_iff.
    rewrite (Hall x0) by (now left). symmetry. apply Hall. now right. }
  now rewrite Hnil.
Qed.

Lemma Qsum_identical x xs :
  (forall y, In y xs -> (y == x)%Q) -> (Qsum xs == Qlen xs * x)%Q.
Proof.
  induction xs as [|y xs IH]; intros Hall; [reflexivity|].
  rewrite Qsum_cons, IH by (intros; apply Hall; now right).
  unfold Qlen. cbn [length].
  rewrite Nat2Z.inj_succ, <- Z.add_1_r, inject_Z_plus.
  rewrite (Hall y) by (now left). ring.
Qed.

Lemma Qsum_zero xs : (forall y, In y xs -> (y == 0)%Q) -> (Qsum xs == 0)%Q.
Proof.
  intros H. rewrite (Qsum_identical 0 xs H). ring.
Qed.

Lemma Qlen_pos {A} (l : list A) : l <> [] -> (0 < Qlen l)%Q.
Proof.
  intros H. destruct l; [congruence|]. unfold Qlen.
  change 0%Q with (inject_Z 0). rewrite <- Zlt_Qlt. simpl. lia.
Qed.

Lemma cv_identical x xs :
  xs <> [] -> (forall y, In y xs -> (y == x)%Q) -> cv_exceeds_3 xs = false.
Proof.
  intros Hne Hall. unfold cv_exceeds_3.
  destruct (Qeq_bool (mean xs) 0); [reflexivity|].
  apply andb_false_iff. right. apply Qltb_ge.
  assert (Hm : (mean xs == x)%Q).
  { unfold mean. rewrite (Qsum_identical x xs Hall). field.
    pose proof (Qlen_pos xs Hne). lra. }
  assert (Hv : (variance xs == 0)%Q).
  { unfold variance. rewrite Qsum_zero; [apply Qmult_0_l|].
    intros z Hz. apply in_map_iff in Hz as (y & <- & Hy).
    rewrite (Hall y Hy), Hm. ring. }
  rewrite Hv, Hm. nra.
Qed.

Lemma dropna_isnull_all s : dropna s <> [] -> isnull_all s = false.
Proof.
  unfold dropna, isnull_all, isnull. induction (cells s) as [|c l IH]; simpl; [congruence|].
  destruct (notna c); simpl; [reflexivity | exact IH].
Qed.

(** X13. When the amount column holds at least five amounts that are
    not null, all numbers and all equal, the amount signal is computed
    and its risk is 0.4 or 0.6: identical amounts always count, a
    column without spread never counts as one of high variance, and
    only the 0.2 of the round-number test may come on top. *)
Theorem identical_amounts_risk
    (df : DataFrame) (file_metadata : Meta) (amount : Series) (x : Q) (xs : list Q) :
  dict_get "amount" df = Some amount ->
  dropna amount = map CNum xs ->
  (5 <= length xs)%nat ->
  (forall y, In y xs -> (y == x)%Q) ->
  exists s,
    amount_distribution_signal df file_metadata = Ok (Some s) /\
    ((risk_score s == 0.4)%Q \/ (risk_score s == 0.6)%Q).
Proof.
  intros Hcol Hvals Hlen Hall.
  assert (Hne : xs <> []) by (destruct xs; [simpl in Hlen; lia | discriminate]).
  unfold amount_distribution_signal. rewrite Hcol.
  rewrite dropna_isnull_all by (rewrite Hvals; destruct xs; [congruence | discriminate]).
  rewrite Hvals, length_map.
  assert (E5 : (Z.of_nat (length xs) <? 5) = false) by (apply Z.ltb_ge; lia).
  rewrite E5, (nunique_identical x xs Hne Hall), numbers_of_numbers. cbn.
  rewrite (cv_identical x xs Hne Hall).
  eexists. split; [reflexivity|]. cbn [risk_score].
  destruct (Qltb 0.8 _); [right | left]; reflexivity.
Qed.

Lemma identical_amounts_risk_witness :
  exists s,
    amount_distribution_signal scenario_A_df ∅ = Ok (Some s) /\
    ((risk_score s == 0.4)%Q \/ (risk_score s == 0.6)%Q).
Proof.
  apply (identical_amounts_risk scenario_A_df ∅ (column DNumber (repeat (CNum 25) 20))
                                25 (repeat 25%Q 20)).
  - reflexivity.
  - reflexivity.
  - simpl. lia.
  - intros y Hy. apply repeat_spec in Hy. now subst.
Defined.

(** ** A dataset without rows *)

Lemma empty_column_isnull_all df k s :
  wf_frame df -> len df = 0%nat -> dict_get k df = Some s -> isnull_all s = true.
Proof.
  intros Hwf Hlen Hk. apply dict_get_In in Hk.
  pose proof (source_column_length df Hwf k s Hk) as H. rewrite Hlen in H.
  unfold isnull_all. destruct (cells s); [reflexivity | discriminate].
Qed.

(** X14. On a table without rows only [file_size] reports, with risk 0:
    the aggregate is 0, the router stores the floor 0.1 as
    ['risk_score'] and the plan has the threshold 0.8. *)
Theorem plan_of_a_dataset_without_rows
    (now : Z) (parse_datetime : Cell -> option Z) (df : DataFrame) (file_metadata : Meta) :
  wf_frame df -> len df = 0%nat ->
  calculate_all_signals (fast_signal_engine now parse_datetime) df file_metadata
    = [ {| signal_name := "file_size"; risk_score := 0; confidence := 0.6 |} ] /\
  exists plan,
    create_execution_plan (rule_router now parse_datetime) df file_metadata
      = (Ok plan, (df, <["risk_score" := VNum 0.1]> file_metadata)) /\
    early_termination_threshold plan = 0.8%Q.
Proof.
  intros Hwf Hlen.
  assert (Hsig : calculate_all_signals (fast_signal_engine now parse_datetime) df file_metadata
                 = [ {| signal_name := "file_size"; risk_score := 0; confidence := 0.6 |} ]).
  { unfold calculate_all_signals, fast_signal_engine, signals. cbn [calculate_loop].
    unfold data_quality_signal, file_size_signal, amount_distribution_signal,
      temporal_pattern_signal, user_behavior_signal.
    rewrite Hlen. cbn [Nat.eqb Z.of_nat Z.ltb Z.compare].
    destruct (dict_get "amount" df) as [a|] eqn:Ea;
      [rewrite (empty_column_isnull_all df _ a Hwf Hlen Ea)|];
      (destruct (dict_get "timestamp" df) as [t|] eqn:Et;
       [rewrite (empty_column_isnull_all df _ t Hwf Hlen Et)|]);
      (destruct (dict_get "user_id" df) as [u|] eqn:Eu;
       [rewrite (empty_column_isnull_all df _ u Hwf Hlen Eu)|]); reflexivity. }
  split; [exact Hsig|].
  rewrite create_execution_plan_Ok.
  assert (Hrisk : floored_risk (rule_router now parse_datetime) df file_metadata = 0.1%Q).
  { unfold floored_risk, rule_router. cbn [self_fast_signal_engine]. now rewrite Hsig. }
  eexists. split; [rewrite Hrisk; reflexivity|].
  cbn [early_termination_threshold plan_of]. now rewrite Hrisk.
Qed.

Lemma plan_of_a_dataset_without_rows_witness :
  exists plan,
    create_execution_plan (rule_router 0 (fun _ => None)) empty_df ∅
      = (Ok plan, (empty_df, <["risk_score" := VNum 0.1]> ∅)) /\
    early_termination_threshold plan = 0.8%Q.
Proof.
  apply (plan_of_a_dataset_without_rows 0 (fun _ => None) empty_df ∅).
  - split; [repeat constructor; simpl; intuition discriminate | repeat constructor].
  - reflexivity.
Defined.

(** ** The filter and the risk *)

(** X15. At the filtering step a higher risk never costs a rule: what
    [_filter_rules_by_risk_and_cost] keeps at one risk it keeps at any
    higher one, the list of rules and the metadata being the same. *)
Theorem filter_keeps_more_at_higher_risk
    (self : RuleRouter) (rules : list string) (file_metadata : Meta)
    (risk risk' : Q) (rule_name : string) :
  (risk <= risk')%Q ->
  In rule_name (_filter_rules_by_risk_and_cost self rules risk file_metadata) ->
  In rule_name (_filter_rules_by_risk_and_cost self rules risk' file_metadata).
Proof.
  intros Hle. rewrite !filter_rules_as_filter, !filter_In, !kept_spec.
  intros (Hin & m & Hm & Hcost & Hthr). split; [exact Hin|].
  exists m. split; [exact Hm|]. split.
  - intros (He & Hr & Hft). apply Hcost. repeat split; [exact He | | exact Hft].
    eapply Qle_lt_trans; eassumption.
  - eapply Qle_trans; eassumption.
Qed.

Lemma filter_keeps_more_at_higher_risk_witness :
  In "anomaly_detection"
     (_filter_rules_by_risk_and_cost scenario_D_router
        ["high_value_transactions"; "anomaly_detection"] 0.9 ∅).
Proof.
  apply (filter_keeps_more_at_higher_risk scenario_D_router
           ["high_value_transactions"; "anomaly_detection"] ∅ 0.3 0.9 "anomaly_detection").
  - discriminate.
  - vm_compute. tauto.
Defined.

(** ** Detecting the file type *)

Lemma indicator_score_acc indicators cols acc :
  fold_left (fun score indicator =>
               if any_contains indicator cols then score + 2 else score) indicators acc
  = acc + indicator_score indicators cols.
Proof.
  unfold indicator_score. revert acc.
  induction indicators as [|i l IH]; intros acc; simpl; [lia|].
  rewrite IH, (IH (if any_contains i cols then 0 + 2 else 0)).
  destruct (any_contains i cols); lia.
Qed.




Lemma detect_file_type_fst df :
  In (fst (detect_file_type df)) ["inventory"; "financial"; "security_logs"].
Proof.
  unfold detect_file_type.
  match goal with
  | |- context [max_by_score (?a, ?i) [(?b, ?f); (?c, ?s)]] =>
      generalize i, f, s; intros x y z
  end.
  cbn [max_by_score snd].
  destruct (x <? y); cbn [snd]; destruct (_ <? z); cbn [fst]; simpl; tauto.
Qed.


Lemma existsb_same_elements {A} (p : A -> bool) (l l' : list A) :
  (forall x, In x l <-> In x l') -> existsb p l = existsb p l'.
Proof.
  intros H. destruct (existsb p l) eqn:E; symmetry.
  - apply existsb_exists in E as (x & Hx & Hp). apply existsb_exists. exists x.
    split; [now apply H | exact Hp].
  - apply not_true_iff_false. intros E'. apply not_true_iff_false in E. apply E.
    apply existsb_exists in E' as (x & Hx & Hp). apply existsb_exists. exists x.
    split; [now apply H | exact Hp].
Qed.

Lemma indicator_score_same_elements indicators cols cols' :
  (forall x, In x cols <-> In x cols') ->
  indicator_score indicators cols = indicator_score indicators cols'.
Proof.
  intros H. induction indicators as [|i l IH]; [reflexivity|].
  unfold indicator_score. simpl. rewrite !indicator_score_acc, IH.
  unfold any_contains. now rewrite (existsb_same_elements _ cols cols' H).
Qed.

(** X17. The answer of [detect_file_type] depends on nothing but the set
    of column names, read in lower case and without surrounding blanks:
    two datasets with the same such names get the same file type and
    the same confidence, whatever their cells, the order of their
    columns and the spelling of the names. *)
Theorem detect_file_type_reads_the_names_only (df df' : DataFrame) :
  (forall c, In c (map normalized (columns df)) <-> In c (map normalized (columns df'))) ->
  detect_file_type df = detect_file_type df'.
Proof.
  intros H. unfold detect_file_type.
  change (map (fun col => strip (lower col)) (columns df)) with (map normalized (columns df)).
  change (map (fun col => strip (lower col)) (columns df')) with (map normalized (columns df')).
  set (cols := map normalized (columns df)) in *.
  set (cols' := map normalized (columns df')) in *.
  rewrite !(indicator_score_same_elements _ cols cols' H).
  unfold any_contains.
  rewrite !(existsb_same_elements _ cols cols' H). reflexivity.
Qed.

Lemma detect_file_type_reads_the_names_only_witness :
  detect_file_type shouting_df = detect_file_type whispering_df.
Proof.
  apply detect_file_type_reads_the_names_only.
  intros c. vm_compute. tauto.
Defined.

(** ** The canonical frame, column by column *)

Section DictUpdate.
Context {V : Type}.
Implicit Types (d l : list (string * V)).

Lemma dict_get_fresh d k : ~ In k (dict_keys d) -> dict_get k d = None.
Proof.
  intros H. destruct (dict_get k d) eqn:E; [|reflexivity].
  exfalso. apply H. apply dict_get_In in E. unfold dict_keys. apply in_map_iff.
  now exists (k, v).
Qed.

Lemma dict_update_cons d p l :
  dict_update d (p :: l) = dict_update (dict_set (fst p) (snd p) d) l.
Proof. reflexivity. Qed.

Lemma dict_update_keys d l :
  List.NoDup (dict_keys d ++ dict_keys l) ->
  dict_keys (dict_update d l) = dict_keys d ++ dict_keys l.
Proof.
  revert d. induction l as [|[k v] l IH]; intros d H; simpl.
  - now rewrite app_nil_r.
  - assert (Hk : dict_set k v d = d ++ [(k, v)]).
    { apply dict_set_fresh, dict_get_fresh. intros Hin.
      apply NoDup_remove_2 in H. apply H, in_or_app. now left. }
    change (dict_keys (dict_update (dict_set k v d) l) = dict_keys d ++ [k] ++ dict_keys l).
    rewrite app_assoc, Hk, IH; unfold dict_keys in *; rewrite map_app; [reflexivity|].
    rewrite <- app_assoc. exact H.
Qed.

Lemma dict_update_get_other d l k :
  ~ In k (dict_keys l) -> dict_get k (dict_update d l) = dict_get k d.
Proof.
  revert d. induction l as [|[k' v] l IH]; intros d H; [reflexivity|].
  unfold dict_update in *. simpl. rewrite IH by (intros Hin; apply H; now right).
  apply dict_get_set_ne. intros ->. apply H. now left.
Qed.

Lemma dict_update_get d l k v :
  List.NoDup (dict_keys l) -> In (k, v) l -> dict_get k (dict_update d l) = Some v.
Proof.
  revert d. induction l as [|[k' v'] l IH]; intros d Hnd Hin; [destruct Hin|].
  inversion Hnd as [|? ? Hk' Hnd']; subst. unfold dict_update in *. simpl.
  destruct Hin as [[= -> ->]|Hin].
  - change (dict_get k (dict_update (dict_set k v d) l) = Some v).
    rewrite dict_update_get_other by exact Hk'. apply dict_get_set_eq.
  - now apply IH.
Qed.
End DictUpdate.

Lemma ensure_valid_index_fill frame v :
  ensure_valid_index frame v = fill (length (cells v)) frame.
Proof. reflexivity. Qed.

Lemma fill_len n frame : frame_inv n frame -> frame <> [] -> len (fill n frame) = n.
Proof.
  intros [Hcols Hlen] Hne. unfold fill.
  destruct ((len frame =? 0)%nat && (0 <? n)%nat) eqn:E.
  - apply (len_of_columns n); [apply reindex_columns | destruct frame; [congruence | discriminate]].
  - destruct Hlen as [Hlen|Hlen]; [exact Hlen|].
    rewrite Hlen in E. simpl in E. apply Nat.ltb_ge in E. lia.
Qed.

Lemma fill_same n frame : len frame = n -> fill n frame = frame.
Proof.
  intros H. unfold fill. rewrite H. now destruct n.
Qed.

Lemma setitem_fill n frame k v :
  frame_inv n frame -> length (cells v) = n ->
  setitem frame k v = dict_set k v (fill n frame).
Proof.
  intros Hinv Hv. unfold setitem. rewrite ensure_valid_index_fill, Hv.
  destruct (fill n frame) as [|c F] eqn:E; [reflexivity|].
  assert (Hne : frame <> []).
  { intros ->. unfold fill in E. simpl in E. destruct (0 <? n)%nat; discriminate E. }
  rewrite <- E, (fill_len n frame Hinv Hne), align_same by exact Hv. reflexivity.
Qed.

Lemma fill_setitem n frame k v :
  frame_inv n frame -> length (cells v) = n ->
  fill n (setitem frame k v) = dict_set k v (fill n frame).
Proof.
  intros Hinv Hv. rewrite fill_same by (now apply setitem_columns).
  now apply setitem_fill.
Qed.

Lemma map_dict_set {V W} (h : V -> W) k v (d : list (string * V)) :
  map (fun c => (fst c, h (snd c))) (dict_set k v d)
  = dict_set k (h v) (map (fun c => (fst c, h (snd c))) d).
Proof.
  induction d as [|[k' v'] d IH]; simpl; [reflexivity|].
  destruct (String.eqb k k'); simpl; [reflexivity | now rewrite IH].
Qed.

Lemma fill_setitem_none n frame k :
  frame_inv n frame ->
  fill n (setitem_none frame k)
  = dict_set k {| dtype := DObject; cells := repeat CNull n |} (fill n frame).
Proof.
  intros [Hcols Hlen]. unfold fill. rewrite setitem_none_len.
  destruct ((len frame =? 0)%nat && (0 <? n)%nat) eqn:E.
  - unfold setitem_none.
    exact (map_dict_set (fun s => {| dtype := dtype s; cells := repeat CNull n |}) k _ frame).
  - unfold setitem_none. destruct Hlen as [->|Hlen]; [reflexivity|].
    rewrite Hlen in E |- *. simpl in E. apply Nat.ltb_ge in E.
    assert (n = 0)%nat by lia. now subst n.
Qed.

Section CanonicalColumns.
Variable df : DataFrame.
Hypothesis df_wf : wf_frame df.

Lemma canonical_column_length aliases : length (cells (canonical_column df aliases)) = len df.
Proof.
  unfold canonical_column. destruct (first_present df aliases) as [[a s]|] eqn:E.
  - now apply (first_present_length df df_wf aliases a).
  - apply repeat_length.
Qed.

Lemma fill_map_fields mappings frame schema :
  frame_inv (len df) frame ->
  fill (len df) (fst (map_fields df mappings frame schema))
  = dict_update (fill (len df) frame)
                (map (fun m => (fst m, canonical_column df (snd m))) mappings).
Proof.
  revert frame schema.
  induction mappings as [|[field aliases] mappings IH]; intros frame schema Hinv;
    [reflexivity|].
  cbn [map_fields map fst snd]. rewrite dict_update_cons. cbn [fst snd].
  destruct (first_present df aliases) as [[a s]|] eqn:E.
  - pose proof (first_present_length df df_wf aliases a s E) as Hs.
    assert (Hc : canonical_column df aliases = s)
      by (unfold canonical_column; now rewrite E).
    rewrite Hc, IH by (now apply setitem_inv). rewrite fill_setitem by assumption.
    reflexivity.
  - assert (Hc : canonical_column df aliases
                 = {| dtype := DObject; cells := repeat CNull (len df) |})
      by (unfold canonical_column; now rewrite E).
    rewrite Hc, IH by (now apply setitem_none_inv).
    rewrite fill_setitem_none by assumption. reflexivity.
Qed.

Lemma fill_add_raw cols frame :
  (forall c, In c cols -> In c df) ->
  frame_inv (len df) frame ->
  fill (len df) (add_raw frame cols)
  = dict_update (fill (len df) frame) (map (fun c => ("raw_" +:+ fst c, snd c)) cols).
Proof.
  revert frame. induction cols as [|[k s] cols IH]; intros frame Hsub Hinv; [reflexivity|].
  assert (Hs : length (cells s) = len df)
    by (apply (source_column_length df df_wf k); apply Hsub; now left).
  cbn [map]. rewrite dict_update_cons. cbn [fst snd].
  change (add_raw frame ((k, s) :: cols)) with (add_raw (setitem frame ("raw_" +:+ k) s) cols).
  rewrite IH; [|intros; apply Hsub; now right | now apply setitem_inv].
  rewrite fill_setitem by assumption. reflexivity.
Qed.

(** The canonical frame is a plain dictionary: the canonical fields with
    their columns, then the raw columns. *)
Lemma canonical_frame_as_dict file_type :
  fst (canonical_frame df file_type)
  = dict_update
      (dict_update [] (map (fun m => (fst m, canonical_column df (snd m)))
                           (mappings_of file_type)))
      (map (fun c => ("raw_" +:+ fst c, snd c))
           (unmapped_cols df (snd (canonical_frame df file_type)))).
Proof.
  pose proof (canonical_frame_len df df_wf file_type) as Hlen.
  rewrite <- (fill_same (len df) _ Hlen).
  unfold canonical_frame, mappings_of in *.
  pose proof (fill_map_fields (default [] (dict_get file_type field_mappings)) [] []) as Hmf.
  pose proof (map_fields_inv df df_wf (default [] (dict_get file_type field_mappings)) [] [])
    as Hinv.
  destruct (map_fields df _ [] []) as [frame schema]. cbn [fst snd] in *.
  destruct Hinv as [Hinv _]; [split; [constructor | now right] | congruence |].
  rewrite fill_add_raw; [|intros c Hc; now apply filter_In in Hc | exact Hinv].
  rewrite Hmf by (split; [constructor | now right]).
  replace (fill (len df) []) with (@nil (string * Series)); [reflexivity|].
  unfold fill. simpl. now destruct (0 <? len df)%nat.
Qed.
End CanonicalColumns.

Lemma dict_mem_set {V} c a (v : V) d :
  dict_mem c (dict_set a v d) = String.eqb a c || dict_mem c d.
Proof.
  unfold dict_mem. destruct (String.eqb a c) eqn:E.
  - apply String.eqb_eq in E as ->. now rewrite dict_get_set_eq.
  - apply String.eqb_neq in E. rewrite dict_get_set_ne by congruence. reflexivity.
Qed.

Lemma map_fields_schema_mem df mappings frame schema c :
  dict_mem c (snd (map_fields df mappings frame schema))
  = dict_mem c schema || chosen df mappings c.
Proof.
  revert frame schema.
  induction mappings as [|[field aliases] mappings IH]; intros frame schema;
    cbn [map_fields chosen existsb snd]; [now rewrite orb_false_r|].
  fold (chosen df mappings c).
  destruct (first_present df aliases) as [[a s]|]; rewrite IH; [|reflexivity].
  rewrite dict_mem_set. now destruct (String.eqb a c), (dict_mem c schema).
Qed.

Lemma canonical_frame_schema_mem df file_type c :
  dict_mem c (snd (canonical_frame df file_type)) = chosen df (mappings_of file_type) c.
Proof.
  unfold canonical_frame, mappings_of.
  pose proof (map_fields_schema_mem df (default [] (dict_get file_type field_mappings)) [] [] c)
    as H.
  destruct (map_fields df _ [] []) as [frame schema]. exact H.
Qed.

Lemma filter_keys {V} (p : string -> bool) (d : list (string * V)) :
  dict_keys (List.filter (fun c => p (fst c)) d) = List.filter p (dict_keys d).
Proof.
  unfold dict_keys. induction d as [|[k v] d IH]; simpl; [reflexivity|].
  destruct (p k); simpl; now rewrite IH.
Qed.

Lemma raw_names_NoDup (l : list string) :
  List.NoDup l -> List.NoDup (map (String.append "raw_") l).
Proof.
  induction 1 as [|x l Hx Hl IH]; simpl; constructor; [|exact IH].
  intros Hin. apply in_map_iff in Hin as (y & Hy & Hin).
  cbv [String.append] in Hy. injection Hy as Hy. now subst y.
Qed.

Lemma mappings_of_keys file_type :
  List.NoDup (dict_keys (mappings_of file_type)) /\
  forall k, ~ In ("raw_" +:+ k) (dict_keys (mappings_of file_type)).
Proof.
  unfold mappings_of, field_mappings. simpl.
  repeat match goal with |- context [String.eqb ?a ?b] => destruct (String.eqb a b) end;
    (split; [repeat constructor; simpl; intuition discriminate
            | intros k; simpl; intuition discriminate]).
Qed.



(** The layout of the canonical frame, in general form. *)
Lemma canonical_frame_columns df file_type :
  wf_frame df ->
  columns (fst (canonical_frame df file_type))
  = dict_keys (mappings_of file_type)
    ++ map (String.append "raw_")
           (List.filter (fun c => negb (chosen df (mappings_of file_type) c)) (columns df)).
Proof.
  intros Hwf. rewrite (canonical_frame_as_dict df Hwf).
  destruct (mappings_of_keys file_type) as [Hnd Hraw].
  assert (Hfields : dict_keys (map (fun m : string * list string =>
                                      (fst m, canonical_column df (snd m)))
                                   (mappings_of file_type))
                    = dict_keys (mappings_of file_type)).
  { unfold dict_keys. rewrite map_map. reflexivity. }
  assert (Hraws : dict_keys (map (fun c : string * Series => ("raw_" +:+ fst c, snd c))
                                 (unmapped_cols df (snd (canonical_frame df file_type))))
                  = map (String.append "raw_")
                        (List.filter (fun c => negb (chosen df (mappings_of file_type) c))
                                     (columns df))).
  { unfold dict_keys at 1. rewrite map_map. cbn [fst].
    rewrite <- (map_map fst (String.append "raw_")). f_equal.
    unfold unmapped_cols, columns.
    rewrite <- (filter_keys (fun c => negb (chosen df (mappings_of file_type) c))).
    f_equal. apply filter_ext. intros c. now rewrite canonical_frame_schema_mem. }
  unfold columns at 1.
  assert (Hbase : dict_keys (dict_update [] (map (fun m : string * list string =>
                                                    (fst m, canonical_column df (snd m)))
                                                 (mappings_of file_type)))
                  = dict_keys (mappings_of file_type)).
  { rewrite dict_update_keys; rewrite Hfields; [reflexivity | exact Hnd]. }
  rewrite dict_update_keys; rewrite Hbase, Hraws; [reflexivity|].
  apply List.NoDup_app.
  - exact Hnd.
  - apply raw_names_NoDup, List.NoDup_filter. apply Hwf.
  - intros k Hk Hin. apply in_map_iff in Hin as (c & <- & _). exact (Hraw c Hk).
Qed.

(** X18. The layout of the canonical frame: its columns are the
    canonical fields of the file type, in the order the mapping declares
    them, whether or not the dataset has a column for them, followed by
    one [raw_] column for each source column that no field was read
    from, in the order of the source.  The detected schema has exactly
    the source columns that a field was read from. *)
Theorem canonical_frame_layout (df : DataFrame) (file_type : string) :
  wf_frame df ->
  let built := canonical_frame df file_type in
  columns (fst built)
  = dict_keys (mappings_of file_type)
    ++ map (String.append "raw_")
           (List.filter (fun c => negb (chosen df (mappings_of file_type) c)) (columns df)) /\
  (forall col, dict_mem col (snd built) = chosen df (mappings_of file_type) col).
Proof.
  intros Hwf built. split.
  - now apply canonical_frame_columns.
  - intros col. apply canonical_frame_schema_mem.
Qed.

Lemma canonical_frame_layout_witness :
  columns (fst (canonical_frame ledger_df "financial"))
  = ["id"; "timestamp"; "amount"; "merchant"; "location"; "user_id"; "payment_method";
     "ip_address"; "device_info"; "raw_note"].
Proof.
  assert (Hwf : wf_frame ledger_df).
  { split; [repeat constructor; simpl; intuition discriminate | repeat constructor]. }
  destruct (canonical_frame_layout ledger_df "financial" Hwf) as [H _].
  rewrite H. reflexivity.
Defined.

Lemma canonical_field_column df file_type field aliases :
  wf_frame df -> In (field, aliases) (mappings_of file_type) ->
  dict_get field (fst (canonical_frame df file_type)) = Some (canonical_column df aliases).
Proof.
  intros Hwf Hin. rewrite (canonical_frame_as_dict df Hwf).
  destruct (mappings_of_keys file_type) as [Hnd Hraw].
  rewrite dict_update_get_other.
  - apply dict_update_get.
    + unfold dict_keys. rewrite map_map. exact Hnd.
    + apply in_map_iff. now exists (field, aliases).
  - unfold dict_keys. rewrite map_map. cbn [fst]. intros H.
    apply in_map_iff in H as (c & Hc & _). apply (Hraw (fst c)). rewrite Hc.
    unfold dict_keys. apply in_map_iff. now exists (field, aliases).
Qed.



(** ** The risk score of the canonicalizer *)








(** ** When the canonicalizer returns *)

Lemma numeric_column_cells s c :
  numeric_column s = true -> In c (cells s) -> numeric_or_null c = true.
Proof.
  unfold numeric_column, isnull_all. intros H Hin.
  destruct (dtype s); rewrite forallb_forall in H; specialize (H c Hin);
    [exact H | | ]; now destruct c.
Qed.

Lemma lt_zero_Ok l :
  (forall c, In c l -> numeric_or_null c = true) ->
  mapM lt_zero l = Ok (map (fun c => match c with CNum q => Qltb q 0 | _ => false end) l).
Proof.
  intros H. apply mapM_Ok. intros c Hc. specialize (H c Hc). now destruct c.
Qed.

Lemma numbers_dropna_Ok s :
  (forall c, In c (cells s) -> numeric_or_null c = true) ->
  exists xs, numbers (dropna s) = Ok xs.
Proof.
  intros H. eexists. unfold numbers, dropna.
  apply (mapM_Ok as_number (fun c => match c with CNum q => q | _ => 0%Q end)).
  intros c Hc. apply filter_In in Hc as [Hc Hn]. specialize (H c Hc). now destruct c.
Qed.

Lemma calculate_risk_score_Ok parse df file_type :
  (forall s, dict_get "amount" df = Some s -> numeric_column s = true) ->
  (file_type = "inventory" ->
   forall s, dict_get "quantity" df = Some s -> numeric_column s = true) ->
  exists r, _calculate_risk_score parse df file_type = Ok r.
Proof.
  intros Hamount Hquantity. unfold _calculate_risk_score.
  match goal with
  | |- exists r, ?a ≫= ?k = Ok r => assert (H1 : exists r1, a = Ok r1)
  end.
  { destruct (dict_get "amount" df) as [amount|]; [|eexists; reflexivity].
    destruct (notna_any amount); [|eexists; reflexivity].
    pose proof (numeric_column_cells amount) as Hc. specialize (Hamount amount eq_refl).
    rewrite lt_zero_Ok by (intros; now apply Hc). cbn.
    destruct (numbers_dropna_Ok amount) as [xs ->]; [intros; now apply Hc|].
    cbn. eexists; reflexivity. }
  destruct H1 as [r1 ->]. cbn.
  destruct (String.eqb file_type "inventory") eqn:E; [|eexists; reflexivity].
  apply String.eqb_eq in E.
  destruct (dict_get "quantity" df) as [quantity|]; [|eexists; reflexivity].
  rewrite lt_zero_Ok
    by (intros; apply (numeric_column_cells quantity); [now apply Hquantity | assumption]).
  cbn. eexists; reflexivity.
Qed.

Lemma canonical_column_numeric df aliases :
  (forall a s, first_present df aliases = Some (a, s) -> numeric_column s = true) ->
  numeric_column (canonical_column df aliases) = true.
Proof.
  intros H. unfold canonical_column.
  destruct (first_present df aliases) as [[a s]|]; [now apply (H a)|].
  unfold numeric_column, isnull_all. cbn. apply forallb_forall.
  intros c Hc. apply repeat_spec in Hc. now subst c.
Qed.

(** X21. On a dataset detected as financial or inventory,
    [canonicalize_schema] returns, with the detected type and confidence
    in the metadata, as soon as the column read as the amount, and for
    an inventory the one read as the quantity, is a column of numbers
    (or has no value at all); the other columns may hold anything. *)
Theorem canonicalize_schema_returns (parse_datetime : Cell -> option Z) (df : DataFrame) :
  wf_frame df ->
  fst (detect_file_type df) <> "security_logs" ->
  (forall field aliases a s,
      In field ["amount"; "quantity"] ->
      In (field, aliases) (mappings_of (fst (detect_file_type df))) ->
      first_present df aliases = Some (a, s) -> numeric_column s = true) ->
  exists canonical_df metadata,
    canonicalize_schema parse_datetime df = Ok (canonical_df, metadata) /\
    file_type metadata = fst (detect_file_type df) /\
    md_confidence metadata = snd (detect_file_type df).
Proof.
  intros Hwf Hnot Hnum.
  pose proof (canonical_field_column df (fst (detect_file_type df))) as Hcol.
  assert (Hfields : exists t a u,
             In ("timestamp", t) (mappings_of (fst (detect_file_type df))) /\
             In ("amount", a) (mappings_of (fst (detect_file_type df))) /\
             In ("user_id", u) (mappings_of (fst (detect_file_type df))) /\
             (fst (detect_file_type df) = "inventory" ->
              exists q, In ("quantity", q) (mappings_of (fst (detect_file_type df))))).
  { destruct (detect_file_type_fst df) as [H|[H|[H|[]]]]; [| |congruence];
      rewrite <- H; do 3 eexists; (repeat split; [| | |intros [=]; eexists]); vm_compute; tauto. }
  destruct Hfields as (t & a & u & Ht & Ha & Hu & Hq).
  unfold canonicalize_schema.
  destruct (detect_file_type df) as [file_type confidence]. cbn [fst snd] in *.
  destruct (canonical_frame df file_type) as [frame schema]. cbn [fst] in *.
  destruct (calculate_risk_score_Ok parse_datetime frame file_type) as [r ->].
  - intros s Hs. rewrite (Hcol "amount" a Hwf Ha) in Hs. injection Hs as <-.
    apply canonical_column_numeric. intros x s. apply (Hnum "amount"); simpl; tauto.
  - intros Hinv s Hs. destruct (Hq Hinv) as [q Hq'].
    rewrite (Hcol "quantity" q Hwf Hq') in Hs. injection Hs as <-.
    apply canonical_column_numeric. intros x s. apply (Hnum "quantity"); simpl; tauto.
  - unfold getitem.
    rewrite (Hcol "timestamp" t Hwf Ht), (Hcol "amount" a Hwf Ha), (Hcol "user_id" u Hwf Hu).
    cbn. do 2 eexists. repeat split.
Qed.

Lemma canonicalize_schema_returns_witness :
  exists canonical_df metadata,
    canonicalize_schema (fun _ => None) ledger_df = Ok (canonical_df, metadata) /\
    file_type metadata = "financial" /\
    md_confidence metadata = (2 # 10)%Q.
Proof.
  assert (Hwf : wf_frame ledger_df).
  { split; [repeat constructor; simpl; intuition discriminate | repeat constructor]. }
  change "financial" with (fst (detect_file_type ledger_df)).
  change (2 # 10)%Q with (snd (detect_file_type ledger_df)).
  apply (canonicalize_schema_returns (fun _ => None) ledger_df Hwf).
  - vm_compute. discriminate.
  - intros field aliases a s Hfield Hin.
    change (mappings_of (fst (detect_file_type ledger_df))) with (mappings_of "financial") in Hin.
    destruct Hfield as [<-|[<-|[]]];
      vm_compute in Hin; repeat (destruct Hin as [Hin|Hin]; try discriminate Hin);
      try contradiction.
    injection Hin as <-. vm_compute. intros [= <- <-]. reflexivity.
Defined.
